(** * Assignment-deadline calendars: the code of the repository, embedded.

    The development follows the three Python sources:
    - [calendar_server.py]: [DeadlineDatabase] (an SQLite table) and
      [CalendarHandler] (the HTTP routes);
    - [deadlines_to_ics.py]: the static generator and the command line;
    - the text and date helpers of the Python library both rely on
      ([str.strip], [str.upper], [str.startswith], [datetime.strptime],
      [date.isoformat]).

    Text is a Rocq [string], one [ascii] per character: the development
    covers ASCII text.  A TSV file is the list of rows [csv.reader] yields,
    each row a list of fields.  Python [int] is [Z]. *)

From Stdlib Require Import ZArith List Bool Ascii String Lia Permutation.
From Stdlib Require Import Sorted.
From Stdlib Require Import Numbers.DecimalString.
Import ListNotations.

Set Warnings "-register-all".

Open Scope string_scope.
Open Scope Z_scope.

(** ** Text helpers of the Python runtime *)

Module Text.

Definition code (c : ascii) : Z := Z.of_N (N_of_ascii c).

(** [str.isspace] on one ASCII character: TAB, LF, VT, FF, CR, the four
    separators 0x1c..0x1f and the blank. *)
Definition is_space (c : ascii) : bool :=
  let n := code c in
  ((9 <=? n) && (n <=? 13)) || ((28 <=? n) && (n <=? 31)) || (n =? 32).

Fixpoint lstrip (s : string) : string :=
  match s with
  | EmptyString => EmptyString
  | String c r => if is_space c then lstrip r else s
  end.

Fixpoint rstrip (s : string) : string :=
  match s with
  | EmptyString => EmptyString
  | String c r =>
      match rstrip r with
      | EmptyString => if is_space c then EmptyString else String c EmptyString
      | r' => String c r'
      end
  end.

(** [s.strip()] *)
Definition strip (s : string) : string := rstrip (lstrip s).

Definition upper_char (c : ascii) : ascii :=
  let n := code c in
  if (97 <=? n) && (n <=? 122) then ascii_of_N (Z.to_N (n - 32)) else c.

(** [s.upper()] *)
Fixpoint upper (s : string) : string :=
  match s with
  | EmptyString => EmptyString
  | String c r => String (upper_char c) (upper r)
  end.



(** [s.startswith(p)] *)
Definition startswith (s p : string) : bool := String.prefix p s.

(** [s.replace(".ics", "")]: every occurrence, scanning left to right,
    the result is not scanned again. *)
Fixpoint remove_ics (s : string) : string :=
  match s with
  | String "." (String "i" (String "c" (String "s" r))) => remove_ics r
  | String c r => String c (remove_ics r)
  | EmptyString => EmptyString
  end.

Fixpoint has_slash (s : string) : bool :=
  match s with
  | EmptyString => false
  | String c r => Ascii.eqb c "/" || has_slash r
  end.

(** [s.split("/")[-1]]: the text after the last slash. *)
Fixpoint last_segment (s : string) : string :=
  match s with
  | EmptyString => EmptyString
  | String c r =>
      if has_slash r then last_segment r
      else if Ascii.eqb c "/" then r else s
  end.

(** [str(n)] for a Python [int]. *)
Definition str_of_int (n : Z) : string :=
  NilEmpty.string_of_int (Z.to_int n).

(** The double quote, for the texts that hold one. *)
Definition dquote : string := String (ascii_of_N 34) EmptyString.

(** Truth value of a Python string or of [None]. *)
Definition truthy (o : option string) : bool :=
  match o with
  | None => false
  | Some EmptyString => false
  | Some _ => true
  end.

End Text.

(** ** Dates: [datetime.strptime] and [date.isoformat] *)

Module Dates.
Import Text.

Record date := mkdate { year : Z; month : Z; day : Z }.

Definition is_leap (y : Z) : bool :=
  (y mod 4 =? 0) && (negb (y mod 100 =? 0) || (y mod 400 =? 0)).

Definition days_in_month (y m : Z) : Z :=
  if m =? 2 then (if is_leap y then 29 else 28)
  else if (m =? 4) || (m =? 6) || (m =? 9) || (m =? 11) then 30
  else 31.

(** [datetime.date(y, m, d)]: [None] stands for the [ValueError]. *)
Definition make_date (y m d : Z) : option date :=
  if (1 <=? y) && (y <=? 9999) && (1 <=? m) && (m <=? 12)
     && (1 <=? d) && (d <=? days_in_month y m)
  then Some (mkdate y m d) else None.

Definition digit_value (c : ascii) : option Z :=
  let n := code c in
  if (48 <=? n) && (n <=? 57) then Some (n - 48) else None.

(** The directives of the two formats in use and literal characters. *)
Inductive directive := dir_d | dir_m | dir_Y | dir_lit (c : ascii).

Definition in_range (lo hi : Z) (c : ascii) : option Z :=
  match digit_value c with
  | Some v => if (lo <=? v) && (v <=? hi) then Some v else None
  | None => None
  end.

(** One branch of a regular expression over at most two characters:
    a first character class, then an optional second one. *)
Definition two (lo1 hi1 lo2 hi2 : Z) (s : string) : list (Z * string) :=
  match s with
  | String a (String b r) =>
      match in_range lo1 hi1 a, in_range lo2 hi2 b with
      | Some x, Some y => [(10 * x + y, r)]
      | _, _ => []
      end
  | _ => []
  end.

Definition one (lo hi : Z) (s : string) : list (Z * string) :=
  match s with
  | String a r =>
      match in_range lo hi a with Some x => [(x, r)] | None => [] end
  | _ => []
  end.

Definition blank_one (lo hi : Z) (s : string) : list (Z * string) :=
  match s with
  | String " " r => one lo hi r
  | _ => []
  end.

(** The regular expressions [_strptime] compiles the directives to, as
    the list of their branches in priority order:
    - [%d] is [3[0-1]|[1-2]\d|0[1-9]|[1-9]| [1-9]],
    - [%m] is [1[0-2]|0[1-9]|[1-9]],
    - [%Y] is [\d\d\d\d]. *)
Definition branches (d : directive) (s : string) : list (Z * string) :=
  match d with
  | dir_d =>
      two 3 3 0 1 s ++ two 1 2 0 9 s ++ two 0 0 1 9 s
        ++ one 1 9 s ++ blank_one 1 9 s
  | dir_m => two 1 1 0 2 s ++ two 0 0 1 9 s ++ one 1 9 s
  | dir_Y =>
      match s with
      | String a (String b (String c (String e r))) =>
          match digit_value a, digit_value b, digit_value c, digit_value e with
          | Some x, Some y, Some z, Some w =>
              [(1000 * x + 100 * y + 10 * z + w, r)]
          | _, _, _, _ => []
          end
      | _ => []
      end
  | dir_lit c =>
      match s with
      | String c' r => if Ascii.eqb c c' then [(0, r)] else []
      | _ => []
      end
  end.

Fixpoint first_some {A B} (f : A -> option B) (l : list A) : option B :=
  match l with
  | [] => None
  | x :: r => match f x with Some y => Some y | None => first_some f r end
  end.

(** [re.match]: the first match of the whole format in priority order
    (backtracking over the branches); the values of the directives in
    format order and the text left over. *)
Fixpoint re_match (fmt : list directive) (s : string)
  : option (list Z * string) :=
  match fmt with
  | [] => Some ([], s)
  | d :: fmt' =>
      first_some
        (fun '(v, r) =>
           match re_match fmt' r with
           | Some (vs, rest) =>
               Some (match d with dir_lit _ => vs | _ => v :: vs end, rest)
           | None => None
           end)
        (branches d s)
  end.

(** ["%d/%m/%Y"] *)
Definition fmt_dmy : list directive :=
  [dir_d; dir_lit "/"; dir_m; dir_lit "/"; dir_Y].

(** ["%Y-%m-%d"] *)
Definition fmt_ymd : list directive :=
  [dir_Y; dir_lit "-"; dir_m; dir_lit "-"; dir_d].

(** [datetime.strptime(s, "%d/%m/%Y")]: the match must cover the whole
    text ("unconverted data remains" otherwise) and the date must exist.
    [None] stands for the [ValueError]. *)
Definition strptime_dmy (s : string) : option date :=
  match re_match fmt_dmy s with
  | Some ([d; m; y], EmptyString) => make_date y m d
  | _ => None
  end.

(** [datetime.strptime(s, "%Y-%m-%d")] *)
Definition strptime_ymd (s : string) : option date :=
  match re_match fmt_ymd s with
  | Some ([y; m; d], EmptyString) => make_date y m d
  | _ => None
  end.

Definition dec_digit (n : Z) : ascii := ascii_of_N (Z.to_N (48 + n mod 10)).

(** ["%02d"] and ["%04d"] on the values a date holds. *)
Definition pad2 (n : Z) : string :=
  String (dec_digit (n / 10)) (String (dec_digit n) EmptyString).

Definition pad4 (n : Z) : string :=
  String (dec_digit (n / 1000)) (String (dec_digit (n / 100))
    (String (dec_digit (n / 10)) (String (dec_digit n) EmptyString))).

(** [d.isoformat()] *)
Definition isoformat (d : date) : string :=
  pad4 (year d) ++ "-" ++ pad2 (month d) ++ "-" ++ pad2 (day d).

(** The shape YYYY-MM-DD. *)
Definition is_digit (c : ascii) : bool :=
  match digit_value c with Some _ => true | None => false end.

Definition is_iso_shape (s : string) : bool :=
  match s with
  | String y1 (String y2 (String y3 (String y4 (String "-"
      (String m1 (String m2 (String "-"
        (String d1 (String d2 EmptyString))))))))) =>
      is_digit y1 && is_digit y2 && is_digit y3 && is_digit y4
      && is_digit m1 && is_digit m2 && is_digit d1 && is_digit d2
  | _ => false
  end.

End Dates.

(** ** [calendar_server.py] *)

Module calendar_server.
Import Text Dates.

(** *** [DeadlineDatabase]: the table [deadlines]

    One record per row, in rowid order.  The columns [created_at] and
    [updated_at] hold the wall-clock time of the insert and are left out.
    [seq] is the counter SQLite keeps for the [AUTOINCREMENT] key in
    [sqlite_sequence]: the largest [id] ever handed out. *)
Record deadline := mkdeadline {
  id : Z;
  module_code : string;
  module_group : string;
  assignment_code : string;
  title : option string;
  recommend_date : option string;
  deadline_date : string;
  academic_year : string;
  is_active : bool
}.

Record database := mkdb { seq : Z; table : list deadline }.

(** [init_database] on a path that holds no table yet. *)
Definition init_database : database := mkdb 0 [].

(** The keys of the dictionary [module_groups], in insertion order. *)
Definition module_groups : list string :=
  ["CM1"; "CM2"; "CS1"; "CS2"; "CB"; "CP1"; "CP2"; "CP3"; "SP"; "SA"].

(** The loop [for group_key in module_groups: if ... : break]. *)
Fixpoint find_group (keys : list string) (module : string) : option string :=
  match keys with
  | [] => None
  | group_key :: keys' =>
      if startswith (upper (strip module)) group_key then Some group_key
      else find_group keys' module
  end.

(** The [try] block: both dates in one trial, [None] is the [except]. *)
Definition parse_dates (recommend_date_str deadline_date_str : string)
  : option (date * option date) :=
  match strptime_dmy (strip deadline_date_str) with
  | None => None
  | Some deadline_date =>
      if truthy (Some (strip recommend_date_str)) then
        match strptime_dmy (strip recommend_date_str) with
        | None => None
        | Some recommend_date => Some (deadline_date, Some recommend_date)
        end
      else Some (deadline_date, None)
  end.

(** [UNIQUE(module_code, assignment_code, academic_year)] *)
Definition same_key (a b : deadline) : bool :=
  String.eqb (module_code a) (module_code b)
  && String.eqb (assignment_code a) (assignment_code b)
  && String.eqb (academic_year a) (academic_year b).

Definition max_id (l : list deadline) : Z :=
  fold_right (fun r m => Z.max (id r) m) 0 l.

(** [INSERT OR REPLACE INTO deadlines (module_code, module_group,
    assignment_code, title, recommend_date, deadline_date) VALUES ...]:
    the key is one more than every key handed out before, the rows in
    conflict on the unique triple are deleted, the columns not listed
    take their defaults. *)
Definition insert_or_replace (db : database)
    (v_module_code v_module_group v_assignment_code : string)
    (v_title v_recommend_date : option string) (v_deadline_date : string)
  : database :=
  let new_id := Z.max (seq db) (max_id (table db)) + 1 in
  let row := mkdeadline new_id v_module_code v_module_group
               v_assignment_code v_title v_recommend_date v_deadline_date
               "2026" true in
  mkdb new_id (filter (fun r => negb (same_key r row)) (table db) ++ [row]).

(** [DELETE FROM deadlines]: the rows go, the counter stays. *)
Definition delete_all (db : database) : database := mkdb (seq db) [].

(** The body of [for row in reader]. *)
Definition import_row (db : database) (row : list string) : database :=
  match row with
  | module :: code :: recommend_date_str :: deadline_date_str :: _ =>
      match find_group module_groups module with
      | None => db
      | Some group =>
          match parse_dates recommend_date_str deadline_date_str with
          | None => db
          | Some (deadline_date, recommend_date) =>
              insert_or_replace db
                (strip module)
                group
                (strip code)
                (Some (strip module ++ " " ++ strip code))
                (option_map isoformat recommend_date)
                (isoformat deadline_date)
          end
      end
  | _ => db
  end.

Definition import_from_tsv (db : database) (rows : list (list string))
  : database :=
  fold_left import_row rows (delete_all db).

(** The line [import_from_tsv] prints when it is done. *)
Definition import_message (tsv_path : string) : string :=
  "Imported deadlines from " ++ tsv_path.

(** *** Queries *)

(** Comparison of the [ORDER BY] columns: text, byte by byte. *)
Fixpoint key_leb (k1 k2 : list string) : bool :=
  match k1, k2 with
  | [], _ => true
  | _ :: _, [] => false
  | a :: r1, b :: r2 =>
      match String.compare a b with
      | Lt => true
      | Gt => false
      | Eq => key_leb r1 r2
      end
  end.

Section Sort.
Context {A : Type} (key : A -> list string).

Fixpoint insert_sorted (x : A) (l : list A) : list A :=
  match l with
  | [] => [x]
  | y :: r =>
      if key_leb (key x) (key y) then x :: l else y :: insert_sorted x r
  end.

(** Rows with equal keys stay in rowid order (SQL leaves it open). *)
Definition order_by (l : list A) : list A :=
  fold_right insert_sorted [] l.
End Sort.

(** [SELECT module_code, assignment_code, title, deadline_date,
    recommend_date] *)
Definition result_row : Type :=
  string * string * option string * string * option string.

Definition select_columns (r : deadline) : result_row :=
  (module_code r, assignment_code r, title r, deadline_date r,
   recommend_date r).

Definition get_deadlines_by_group (db : database)
    (group : option string) : list result_row :=
  match group with
  | Some g =>
      if truthy group then
        map select_columns
          (order_by (fun r => [deadline_date r; module_code r])
             (filter (fun r => String.eqb (module_group r) (upper g)
                               && is_active r) (table db)))
      else
        map select_columns
          (order_by (fun r => [module_group r; deadline_date r; module_code r])
             (filter is_active (table db)))
  | None =>
      map select_columns
        (order_by (fun r => [module_group r; deadline_date r; module_code r])
           (filter is_active (table db)))
  end.

Fixpoint distinct (l : list string) : list string :=
  match l with
  | [] => []
  | x :: r => x :: filter (fun y => negb (String.eqb x y)) (distinct r)
  end.

(** [SELECT DISTINCT module_group ... ORDER BY module_group] *)
Definition get_module_groups (db : database) : list string :=
  order_by (fun g => [g])
    (distinct (map module_group (filter is_active (table db)))).

(** *** Calendars of the [ics] library

    [begin] is a [date] (a whole-day event) or a [datetime] at
    midnight.  [uid] is [None] for the random identifier the library
    draws for an event that was given none.  [events] is a set, kept
    here as the list of its members in the order they were added, an
    order the set does not promise.  Two events made apart are two
    members of the set, also when they carry one [uid].

    To add an event the set hashes it.  [Event.__hash__] is [int] of the
    text that writes every character of the uid as three decimal digits,
    and [int] refuses a text of more than 4300 digits with a
    [ValueError]: a uid of 1434 characters or more cannot be added. *)
Inductive moment := on_date (d : date) | at_midnight (d : date).

Record Event := mkEvent {
  name : string;
  begin : moment;
  end_ : moment;
  description : option string;
  categories : list string;
  uid : option string
}.

Record Calendar := mkCalendar {
  creator : option string;
  extra : list (string * string);
  events : list Event
}.

(** The limit of the interpreter on the digits [int] converts. *)
Definition max_str_digits : Z := 4300.

(** [hash(event)] returns: the uid, three digits a character, is a text
    [int] converts.  A uid the library drew is 45 characters long. *)
Definition hashes (event : Event) : bool :=
  match uid event with
  | Some u => 3 * Z.of_nat (String.length u) <=? max_str_digits
  | None => true
  end.

(** [cal.events.add(event)], for an event that hashes. *)
Definition events_add (cal : Calendar) (event : Event) : Calendar :=
  mkCalendar (creator cal) (extra cal) (events cal ++ [event]).

(** *** [CalendarHandler] *)

Inductive json :=
| JNull
| JStr (s : string)
| JArr (l : list json)
| JObj (members : list (string * json)).

Definition json_of_option (o : option string) : json :=
  match o with Some s => JStr s | None => JNull end.

(** What a response carries; the text of the index page is not
    modelled, only the groups it lists. *)
Inductive body :=
| no_body
| error_page (message : string)
| index_page (groups : list string)
| ics_text (cal : Calendar)
| json_text (j : json).

Record response := mkresponse {
  status : Z;
  headers : list (string * string);
  content : body
}.

(** One turn of the loop of [generate_calendar]; [None] is the
    [ValueError] of [strptime] on a stored date, or the one of hashing
    the event when it is added to the set. *)
Definition add_deadline (group : option string) (acc : option Calendar)
    (row : result_row) : option Calendar :=
  let '(module_code, assignment_code, title, deadline_date_str,
        recommend_date_str) := row in
  match acc with
  | None => None
  | Some calendar =>
      match strptime_ymd deadline_date_str with
      | None => None
      | Some deadline_date =>
          let event :=
            mkEvent
              (module_code ++ " " ++ assignment_code ++ " deadline")
              (on_date deadline_date)
              (on_date deadline_date)
              (Some ("Assignment deadline for " ++ module_code ++ " "
                       ++ assignment_code))
              (match group with
               | Some g => if truthy group then [g] else ["Assignment"]
               | None => ["Assignment"]
               end)
              (Some (module_code ++ "-" ++ assignment_code ++ "-"
                       ++ deadline_date_str ++ "@deadlines-calendar")) in
          if hashes event then Some (events_add calendar event) else None
      end
  end.

Definition generate_calendar (db : database) (group : option string)
    (calendar_name : string) : option Calendar :=
  fold_left (add_deadline group)
    (get_deadlines_by_group db group)
    (Some (mkCalendar (Some calendar_name)
             [("X-WR-CALNAME", calendar_name);
              ("X-WR-CALDESC", "ActEd " ++ calendar_name);
              ("NAME", calendar_name)]
             [])).

(** [None]: the handler raised, no response was sent. *)
Definition serve_calendar (db : database) (path : string)
  : option response :=
  let filename := last_segment path in
  let '(group, calendar_name) :=
    if String.eqb filename "all.ics"
    then (None, "All Assignment Deadlines April 2026")
    else (Some (upper (remove_ics filename)),
          upper (remove_ics filename) ++ " Marking Deadlines April 2026") in
  match generate_calendar db group calendar_name with
  | None => None
  | Some calendar =>
      Some (mkresponse 200
              [("Content-Type", "text/calendar; charset=utf-8");
               ("Content-Disposition",
                "attachment; filename=" ++ dquote ++ filename ++ dquote);
               ("Cache-Control", "no-cache, must-revalidate");
               ("Expires", "Thu, 01 Jan 1970 00:00:00 GMT")]
              (ics_text calendar))
  end.

Definition serve_groups (db : database) : response :=
  mkresponse 200 [("Content-Type", "application/json")]
    (json_text (JObj [("groups", JArr (map JStr (get_module_groups db)))])).

(** The query string as [parse_qs] returns it: every name with the
    list of its values, which is never empty. *)
Definition query : Type := list (string * (string * list string)).

Fixpoint query_get (q : query) (k : string) : option string :=
  match q with
  | [] => None
  | (k', (v, _)) :: r => if String.eqb k k' then Some v else query_get r k
  end.

Definition format_deadline (row : result_row) : json :=
  let '(module_code, assignment_code, title, deadline_date,
        recommend_date) := row in
  JObj [("module_code", JStr module_code);
        ("assignment_code", JStr assignment_code);
        ("title", json_of_option title);
        ("deadline_date", JStr deadline_date);
        ("recommend_date", json_of_option recommend_date)].

Definition serve_deadlines (db : database) (query_params : query)
  : response :=
  let group := query_get query_params "group" in
  let group :=
    match group with
    | Some g => if String.eqb g "ALL" then None else group
    | None => None
    end in
  mkresponse 200
    [("Content-Type", "application/json");
     ("Access-Control-Allow-Origin", "*")]
    (json_text
       (JObj [("deadlines",
               JArr (map format_deadline (get_deadlines_by_group db group)))])).

(** [None]: the function raised.  [base_host] and [https_base_url] are
    bound in the body of [for group in groups] and read after the loop,
    for the links of the combined calendar: without a group the read
    raises [UnboundLocalError], before any response is sent. *)
Definition serve_index (db : database) : option response :=
  match get_module_groups db with
  | [] => None
  | groups =>
      Some (mkresponse 200 [("Content-Type", "text/html; charset=utf-8")]
              (index_page groups))
  end.

Definition do_GET (db : database) (path : string) (query_params : query)
  : option response :=
  if String.eqb path "/" then serve_index db
  else if startswith path "/calendar/" then serve_calendar db path
  else if String.eqb path "/api/groups" then Some (serve_groups db)
  else if String.eqb path "/api/deadlines"
       then Some (serve_deadlines db query_params)
  else if String.eqb path "/favicon.ico" then Some (mkresponse 204 [] no_body)
  else Some (mkresponse 404 [] (error_page "Calendar not found")).

(** *** The links of the index page

    [serve_index] writes, for every group of [get_module_groups], a
    subscription link and the address shown beside it.  The host is the
    environment variable [RAILWAY_STATIC_URL] when it is set, else the
    request's [Host] header, else [localhost:8080]; both branches of the
    conditional that builds [https_base_url] give the [webcal://]
    scheme. *)





End calendar_server.

(** ** [deadlines_to_ics.py] *)

Module deadlines_to_ics.
Import Text Dates.
Import calendar_server.

(** What a run does to the outside, in order.  [WriteFile name cal] is
    [open(name, "w").write(cal.serialize())]; [ImportDb path rows] is
    [DeadlineDatabase(path).import_from_tsv] on the file holding [rows];
    [ServerMain] is [calendar_server.main()] with the arguments reset,
    which serves with the default settings. *)
Inductive effect :=
| Print (line : string)
| WriteFile (file_name : string) (cal : Calendar)
| ImportDb (db_path : string) (rows : list (list string))
| ServerMain.

Inductive exit := Return | SysExit (status : Z).

(** [parse_date]: [None] for a text that is no date. *)
Definition parse_date (date_str : string) : option date :=
  strptime_dmy (strip date_str).

Definition module_files (month : string) (year : Z)
  : list (string * string) :=
  let tail := " Assignment Deadlines " ++ month ++ " " ++ str_of_int year
              ++ ".ics" in
  [("CM1", "CM1" ++ tail); ("CM2", "CM2" ++ tail);
   ("CS1", "CS1" ++ tail); ("CS2", "CS2" ++ tail);
   ("CB", "CB" ++ tail); ("CP1", "CP1" ++ tail);
   ("CP2", "CP2" ++ tail); ("CP3", "CP3" ++ tail);
   ("SP", "SP" ++ tail); ("SA", "SA" ++ tail)].

Definition module_names : list (string * string) :=
  [("CM1", "CM1 Assignment Deadlines"); ("CM2", "CM2 Assignment Deadlines");
   ("CS1", "CS1 Assignment Deadlines"); ("CS2", "CS2 Assignment Deadlines");
   ("CB", "CB Assignment Deadlines"); ("CP1", "CP1 Assignment Deadlines");
   ("CP2", "CP2 Assignment Deadlines"); ("CP3", "CP3 Assignment Deadlines");
   ("SP", "SP Assignment Deadlines"); ("SA", "SA Assignment Deadlines")].

(** [d[k]] on a dictionary kept as the list of its items. *)
Fixpoint lookup {A} (d : list (string * A)) (k : string) : option A :=
  match d with
  | [] => None
  | (k', v) :: r => if String.eqb k k' then Some v else lookup r k
  end.

(** [d[k] = f(d[k])], the order of the items kept. *)
Fixpoint update {A} (d : list (string * A)) (k : string) (f : A -> A)
  : list (string * A) :=
  match d with
  | [] => []
  | (k', v) :: r =>
      if String.eqb k k' then (k', f v) :: r else (k', v) :: update r k f
  end.

(** The calendars before any row is read. *)
Definition initial_calendars (month : string) (year : Z)
  : list (string * Calendar) :=
  map (fun '(key, _) =>
         let display := match lookup module_names key with
                        | Some n => n
                        | None => EmptyString
                        end in
         (key,
          mkCalendar None
            [("X-WR-CALNAME", display);
             ("X-WR-CALDESC",
              "ActEd " ++ display ++ " - " ++ month ++ " " ++ str_of_int year);
             ("NAME", display)]
            []))
      (module_files month year).

(** The loop [for mod_key in module_files: if ...: ...; break]. *)
Fixpoint add_to_first (keys : list string) (module : string)
    (event : Event) (calendars : list (string * Calendar))
  : list (string * Calendar) :=
  match keys with
  | [] => calendars
  | mod_key :: keys' =>
      if startswith (upper (strip module)) mod_key
      then update calendars mod_key (fun cal => events_add cal event)
      else add_to_first keys' module event calendars
  end.

(** The body of [for row in reader]. *)
Definition add_row (keys : list string)
    (calendars : list (string * Calendar)) (row : list string)
  : list (string * Calendar) :=
  match row with
  | module :: code :: reccomend_date_str :: deadline_date_str :: _ =>
      match parse_date deadline_date_str with
      | None => calendars
      | Some start =>
          add_to_first keys module
            (mkEvent (module ++ " " ++ code ++ " deadline")
               (at_midnight start) (at_midnight start) None [] None)
            calendars
      end
  | _ => calendars
  end.

(** The calendars once every row is read. *)
Definition fill_calendars (rows : list (list string)) (month : string)
    (year : Z) : list (string * Calendar) :=
  fold_left (add_row (map fst (module_files month year))) rows
    (initial_calendars month year).

(** The loop [for mod_key, cal in calendars.items()]. *)
Fixpoint write_calendars (files : list (string * string))
    (calendars : list (string * Calendar)) : list effect :=
  match calendars with
  | [] => []
  | (mod_key, cal) :: rest =>
      match events cal with
      | [] => write_calendars files rest
      | _ :: _ =>
          let file_name := match lookup files mod_key with
                           | Some f => f
                           | None => EmptyString
                           end in
          WriteFile file_name cal
            :: Print ("ICS file written to " ++ file_name)
            :: write_calendars files rest
      end
  end.

Definition generate_static_files (rows : list (list string)) (year : Z)
    (month : string) : list effect :=
  write_calendars (module_files month year) (fill_calendars rows month year).

Definition import_to_database (input_path : string)
    (rows : list (list string)) (db_path : string) : list effect :=
  [ImportDb db_path rows;
   Print (import_message input_path);
   Print ("Successfully imported " ++ input_path ++ " to database "
            ++ db_path);
   Print "You can now start the calendar server with: python calendar_server.py"].

Definition start_server : list effect := [ServerMain].

(** The command line as [argparse] returns it. *)
Record arguments := mkargs {
  input_path : option string;
  arg_year : option Z;
  arg_month : option string;
  to_database : bool;
  arg_start_server : bool
}.

Definition valid_months : list string :=
  ["January"; "February"; "March"; "April"; "May"; "June";
   "July"; "August"; "September"; "October"; "November"; "December"].

(** The usage text of the module, which [main] prints when no input
    path is given. *)
Definition usage : string :=
  "
Script to convert a TSV deadlines file to multiple .ics calendar files for each module group.
Now supports both static file generation and database import for subscription calendars.

Usage:
    python deadlines_to_ics.py <input_tsv_path> --year 2026 --month September    # Generate static ICS files
    python deadlines_to_ics.py <input_tsv_path> --to-database                    # Import to database for subscriptions
    python deadlines_to_ics.py --start-server                                    # Start subscription server

Parameters:
    --year YYYY     Four-digit year (e.g., 2026)
    --month NAME    Full month name (e.g., September, October, November)
".

Definition newline : string := String (ascii_of_N 10) EmptyString.

(** [main], from the arguments [parse_args] has returned: on a command
    line it refuses [argparse] ends the run itself, with status 2, and
    after [--help] with status 0.  [fs path] is [None] when
    [os.path.exists(path)] is false and the rows of the file otherwise.
    [calendar_server] is taken to be importable, as it is in the
    repository: the [except ImportError] branches of [start_server] and
    [import_to_database] are not entered. *)
Definition main (fs : string -> option (list (list string)))
    (args : arguments) : list effect * exit :=
  if arg_start_server args then (start_server, Return)
  else
    match input_path args with
    | None => ([Print usage], SysExit 1)
    | Some path =>
        if negb (truthy (Some path)) then ([Print usage], SysExit 1)
        else
          match fs path with
          | None =>
              ([Print ("Error: File " ++ path ++ " not found")], SysExit 1)
          | Some rows =>
              if to_database args then
                ((import_to_database path rows "deadlines.db"
                    ++ (if arg_start_server args
                        then Print (newline ++ "Starting calendar server...")
                               :: start_server
                        else []))%list,
                 Return)
              else
                let year := match arg_year args with
                            | Some y => if y =? 0 then 2026 else y
                            | None => 2026
                            end in
                let month := if truthy (arg_month args)
                             then match arg_month args with
                                  | Some m => m
                                  | None => "September"
                                  end
                             else "September" in
                if (year <? 1900) || (year >? 3000) then
                  ([Print "Error: Year must be between 1900 and 3000"],
                   SysExit 1)
                else if negb (existsb (String.eqb month) valid_months) then
                  ([Print ("Error: Month must be one of: "
                             ++ String.concat ", " valid_months)],
                   SysExit 1)
                else (generate_static_files rows year month, Return)
          end
    end.

End deadlines_to_ics.

(** ** Notions the statements are written in *)

Module Notions.
Import Text Dates calendar_server deadlines_to_ics.

(** [g] is the first key of [keys], in their order, that [s] starts
    with. *)
Definition first_prefix (keys : list string) (s g : string) : Prop :=
  exists before after,
    keys = (before ++ g :: after)%list
    /\ startswith s g = true
    /\ Forall (fun k => startswith s k = false) before.

(** The events the static generator builds for the rows of group [g],
    in file order. *)
Definition row_event (g : string) (row : list string) : list Event :=
  match row with
  | module :: code :: _ :: deadline_date_str :: _ =>
      match parse_date deadline_date_str, find_group module_groups module with
      | Some start, Some g' =>
          if String.eqb g' g
          then [mkEvent (module ++ " " ++ code ++ " deadline")
                  (at_midnight start) (at_midnight start) None [] None]
          else []
      | _, _ => []
      end
  | _ => []
  end.

Definition static_events (rows : list (list string)) (g : string)
  : list Event :=
  flat_map (row_event g) rows.

(** Both date texts of a row pass [strptime] with ["%d/%m/%Y"]: the
    deadline always, the recommended date when it is not blank. *)
Definition dates_parse (recommend_date_str deadline_date_str : string) : Prop :=
  (exists d, strptime_dmy (strip deadline_date_str) = Some d)
  /\ (strip recommend_date_str <> ""
      -> exists r, strptime_dmy (strip recommend_date_str) = Some r).

(** The unique triple of a record. *)
Definition natural_key (r : deadline) : string * string * string :=
  (module_code r, assignment_code r, academic_year r).

(** Every column of a record but the key [id] SQLite hands out. *)
Definition columns (r : deadline)
  : string * string * string * option string * option string * string
    * string * bool :=
  (module_code r, module_group r, assignment_code r, title r,
   recommend_date r, deadline_date r, academic_year r, is_active r).

(** The columns a row of the file is stored with, [None] for a row that
    is skipped. *)
Definition row_values (row : list string)
  : option (string * string * string * option string * option string
            * string * string * bool) :=
  match row with
  | module :: code :: recommend_date_str :: deadline_date_str :: _ =>
      match find_group module_groups module,
            parse_dates recommend_date_str deadline_date_str with
      | Some g, Some (d, r) =>
          Some (strip module, g, strip code,
                Some (strip module ++ " " ++ strip code),
                option_map isoformat r, isoformat d, "2026", true)
      | _, _ => None
      end
  | _ => None
  end.

(** The unique triple among the columns. *)
Definition key_of
    (v : string * string * string * option string * option string
         * string * string * bool) : string * string * string :=
  let '(mc, _, ac, _, _, _, ay, _) := v in (mc, ac, ay).

(** A date the calendar has. *)
Definition valid_date (d : date) : Prop :=
  make_date (year d) (month d) (day d) = Some d.

(** What holds of every record ingestion stores. *)
Definition imported (r : deadline) : Prop :=
  In (module_group r) module_groups
  /\ (exists d, valid_date d /\ deadline_date r = isoformat d)
  /\ (recommend_date r = None
      \/ exists d, valid_date d /\ recommend_date r = Some (isoformat d))
  /\ title r = Some (module_code r ++ " " ++ assignment_code r)
  /\ academic_year r = "2026"
  /\ is_active r = true.




(** The response of [/api/deadlines] around its entries. *)
Definition deadlines_response (entries : list json) : response :=
  mkresponse 200
    [("Content-Type", "application/json");
     ("Access-Control-Allow-Origin", "*")]
    (json_text (JObj [("deadlines", JArr entries)])).

(** The active records of one group, in the order the query returns. *)
Definition group_records (db : database) (G : string) : list deadline :=
  order_by (fun r => [deadline_date r; module_code r])
    (filter (fun r => String.eqb (module_group r) G && is_active r)
       (table db)).

(** The active records of every group, in the order the query returns. *)
Definition all_records (db : database) : list deadline :=
  order_by (fun r => [module_group r; deadline_date r; module_code r])
    (filter is_active (table db)).

(** The JSON object [/api/deadlines] answers for a record ingestion
    stored. *)
Definition deadline_entry (r : deadline) : json :=
  JObj [("module_code", JStr (module_code r));
        ("assignment_code", JStr (assignment_code r));
        ("title", JStr (module_code r ++ " " ++ assignment_code r));
        ("deadline_date", JStr (deadline_date r));
        ("recommend_date",
         match recommend_date r with
         | Some s => JStr s
         | None => JNull
         end)].

(** The identifier the feed gives the event of a record. *)
Definition event_uid (r : deadline) : string :=
  module_code r ++ "-" ++ assignment_code r ++ "-" ++ deadline_date r
    ++ "@deadlines-calendar".



(** The file the static generator writes for group [g]. *)
Definition static_file_name (g month : string) (year : Z) : string :=
  g ++ " Assignment Deadlines " ++ month ++ " " ++ str_of_int year ++ ".ics".

(** The calendar of group [g] holding the events [evs]. *)
Definition static_calendar (month : string) (year : Z) (g : string)
    (evs : list Event) : Calendar :=
  mkCalendar None
    [("X-WR-CALNAME", g ++ " Assignment Deadlines");
     ("X-WR-CALDESC",
      "ActEd " ++ g ++ " Assignment Deadlines - " ++ month ++ " "
        ++ str_of_int year);
     ("NAME", g ++ " Assignment Deadlines")]
    evs.

(** The ten calendars of the static generator, group [g] holding the
    events [f g]. *)
Definition static_calendars (month : string) (year : Z)
    (f : string -> list Event) : list (string * Calendar) :=
  map (fun g => (g, static_calendar month year g (f g))) module_groups.

(** What the static generator does for one group: nothing without an
    event, else the file and its confirmation line. *)
Definition group_output (month : string) (year : Z) (g : string)
    (evs : list Event) : list effect :=
  match evs with
  | [] => []
  | _ :: _ =>
      [WriteFile (static_file_name g month year)
         (static_calendar month year g evs);
       Print ("ICS file written to " ++ static_file_name g month year)]
  end.

(** Calendar dates in their order. *)
Definition date_compare (x y : date) : comparison :=
  match year x ?= year y with
  | Eq => match month x ?= month y with
          | Eq => day x ?= day y
          | c => c
          end
  | c => c
  end.

(** The order of the records of one feed: by deadline, the earlier first,
    and by module code among the records of one day.  The dates are the
    ones the stored texts read as. *)
Definition in_feed_order (a b : deadline) : Prop :=
  forall x y,
    strptime_ymd (deadline_date a) = Some x ->
    strptime_ymd (deadline_date b) = Some y ->
    date_compare x y = Lt
    \/ (x = y /\ String.leb (module_code a) (module_code b) = true).

(** The order of the listing of every group: by group, then as in a
    feed. *)
Definition in_listing_order (a b : deadline) : Prop :=
  String.ltb (module_group a) (module_group b) = true
  \/ (module_group a = module_group b /\ in_feed_order a b).

(** A row ingestion makes a record of. *)
Definition accepted (row : list string) : bool :=
  match row_values row with
  | Some _ => true
  | None => false
  end.

(** What holds of the keys while the rows of a file are read, [lo] being
    the counter before. *)
Definition keys_in_order (lo : Z) (st : database) : Prop :=
  StronglySorted Z.lt (map id (table st))
  /\ (forall r, In r (table st) -> lo < id r <= seq st)
  /\ lo <= seq st.

(** A date written day/month/year, two digits, two digits, four
    digits. *)
Definition dmy_text (d : date) : string :=
  pad2 (day d) ++ "/" ++ pad2 (month d) ++ "/" ++ pad4 (year d).

(** The names of the files a run writes, in the order it writes
    them. *)
Definition written_files (effects : list effect) : list string :=
  flat_map (fun e => match e with
                     | WriteFile file_name _ => [file_name]
                     | _ => []
                     end) effects.

(** The event of a record passes the hashing of the set of events: its
    uid has at most 1433 characters. *)
Definition uid_fits (r : deadline) : bool :=
  3 * Z.of_nat (String.length (event_uid r)) <=? max_str_digits.


(** A text of [n] times the character [c]. *)
Fixpoint replicate (n : nat) (c : ascii) : string :=
  match n with
  | O => EmptyString
  | S k => String c (replicate k c)
  end.


(** One decimal digit as a text. *)
Definition digit_text (n : Z) : string := String (dec_digit n) EmptyString.

(** The ways to write the day [n]: with two digits, and below ten also
    with the digit alone or with a blank before the digit. *)
Definition day_texts (n : Z) : list string :=
  if n <? 10 then [pad2 n; digit_text n; String " " (digit_text n)]
  else [pad2 n].

(** The ways to write the month [n]: with two digits, and below ten also
    with the digit alone. *)
Definition month_texts (n : Z) : list string :=
  if n <? 10 then [pad2 n; digit_text n] else [pad2 n].

(** [s] writes the calendar date [d] as day, month and year with a
    slash between them, the year with four digits. *)
Definition reads_as (s : string) (d : date) : Prop :=
  valid_date d
  /\ exists dt mt,
       In dt (day_texts (day d)) /\ In mt (month_texts (month d))
       /\ s = dt ++ "/" ++ mt ++ "/" ++ pad4 (year d).

(** Both date texts of a row, trimmed, write a calendar date: the
    deadline always, the recommended date when it is not blank. *)
Definition dates_read (recommend_date_str deadline_date_str : string)
  : Prop :=
  (exists d, reads_as (strip deadline_date_str) d)
  /\ (strip recommend_date_str <> ""
      -> exists r, reads_as (strip recommend_date_str) r).

(** The strict shape DD/MM/YYYY: two digits, a slash, two digits, a
    slash, four digits. *)
Definition is_dmy_shape (s : string) : bool :=
  match s with
  | String d1 (String d2 (String s1 (String m1 (String m2 (String s2
      (String y1 (String y2 (String y3 (String y4 EmptyString))))))))) =>
      is_digit d1 && is_digit d2 && Ascii.eqb s1 "/"
      && is_digit m1 && is_digit m2 && Ascii.eqb s2 "/"
      && is_digit y1 && is_digit y2 && is_digit y3 && is_digit y4
  | _ => false
  end.

End Notions.

(** * Properties *)

Import Text Dates calendar_server deadlines_to_ics Notions.

(** ** Text *)

Lemma prefix_app (p s : string) :
  String.prefix p s = true <-> exists r, s = p ++ r.
Proof.
  revert s; induction p as [|a p IH]; intros s; simpl.
  - split; [intros _; exists s; reflexivity | intros _; destruct s; reflexivity].
  - destruct s as [|b s]; simpl.
    + split; [discriminate | intros [r H]; discriminate].
    + destruct (ascii_dec a b) as [->|ne].
      * rewrite IH. split; intros [r H]; exists r.
        -- now rewrite H.
        -- now inversion H.
      * split; [discriminate | intros [r H]; inversion H; subst; now elim ne].
Qed.

Lemma startswith_app (s p : string) :
  startswith s p = true <-> exists r, s = p ++ r.
Proof. apply prefix_app. Qed.

(** ** Classification into module groups *)

Lemma find_group_first (keys : list string) (module g : string) :
  find_group keys module = Some g
  <-> first_prefix keys (upper (strip module)) g.
Proof.
  induction keys as [|k keys IH]; simpl.
  - split; [discriminate|].
    intros (b & a & H & _). destruct b; discriminate.
  - destruct (startswith (upper (strip module)) k) eqn:E.
    + split.
      * intros [= <-]. exists [], keys. repeat split; auto.
      * intros (b & a & H & Hg & Hb). destruct b as [|k' b]; simpl in H.
        -- now inversion H.
        -- inversion H; subst k'. inversion Hb; congruence.
    + rewrite IH. split.
      * intros (b & a & H & Hg & Hb). exists (k :: b), a.
        repeat split; auto. now rewrite H.
      * intros (b & a & H & Hg & Hb). destruct b as [|k' b]; simpl in H.
        -- inversion H; congruence.
        -- inversion H; subst. inversion Hb; subst. exists b, a. auto.
Qed.

Lemma find_group_none (keys : list string) (module : string) :
  find_group keys module = None
  <-> Forall (fun k => startswith (upper (strip module)) k = false) keys.
Proof.
  induction keys as [|k keys IH]; simpl.
  - split; auto.
  - destruct (startswith (upper (strip module)) k) eqn:E.
    + split; [discriminate | intros H; inversion H; congruence].
    + rewrite IH. split; [auto | intros H; now inversion H].
Qed.

Lemma find_group_in (keys : list string) (module g : string) :
  find_group keys module = Some g ->
  In g keys /\ startswith (upper (strip module)) g = true.
Proof.
  induction keys as [|k keys IH]; simpl; [discriminate|].
  destruct (startswith (upper (strip module)) k) eqn:E.
  - intros [= <-]. auto.
  - intros H. destruct (IH H). auto.
Qed.

(** No group code is the start of another one: a module code starts
    with at most one of them. *)
Lemma find_group_unique (module g : string) :
  In g module_groups -> startswith (upper (strip module)) g = true ->
  find_group module_groups module = Some g.
Proof.
  intros Hin Hs. apply startswith_app in Hs. destruct Hs as [r Hr].
  unfold module_groups in *. simpl in Hin.
  repeat (destruct Hin as [<-|Hin];
          [cbn [find_group]; rewrite Hr; destruct r; reflexivity|]).
  contradiction.
Qed.

Lemma static_keys (month : string) (year : Z) :
  map fst (module_files month year) = module_groups.
Proof. reflexivity. Qed.

Lemma add_to_first_find (keys : list string) (module : string) (ev : Event)
    (cals : list (string * Calendar)) :
  add_to_first keys module ev cals =
  match find_group keys module with
  | Some g => update cals g (fun cal => events_add cal ev)
  | None => cals
  end.
Proof.
  induction keys as [|k keys IH]; simpl; [reflexivity|].
  destruct (startswith (upper (strip module)) k); auto.
Qed.

Lemma import_row_unclassified (db : database) (module : string)
    (fields : list string) :
  find_group module_groups module = None ->
  import_row db (module :: fields) = db.
Proof.
  intros H. unfold import_row.
  destruct fields as [|c [|r [|d rest]]]; auto. now rewrite H.
Qed.

Lemma add_row_unclassified (keys : list string)
    (cals : list (string * Calendar)) (module : string)
    (fields : list string) :
  find_group keys module = None ->
  add_row keys cals (module :: fields) = cals.
Proof.
  intros H. unfold add_row.
  destruct fields as [|c [|r [|d rest]]]; auto.
  destruct (parse_date d); auto.
  now rewrite add_to_first_find, H.
Qed.

(** ** Date validation during ingestion *)

Lemma truthy_some (s : string) : truthy (Some s) = true <-> s <> "".
Proof. destruct s; simpl; split; congruence. Qed.

Lemma parse_dates_some (rec dl : string) :
  dates_parse rec dl <-> exists v, parse_dates rec dl = Some v.
Proof.
  unfold dates_parse, parse_dates.
  destruct (strptime_dmy (strip dl)) as [d|].
  - destruct (truthy (Some (strip rec))) eqn:T.
    + apply truthy_some in T.
      destruct (strptime_dmy (strip rec)) as [r|].
      * split; eauto.
      * split.
        -- intros [_ H]. destruct (H T) as [r Hr]. discriminate.
        -- intros [v Hv]. discriminate.
    + split; [eauto|]. intros _. split; [eauto|].
      intros N. apply truthy_some in N. congruence.
  - split.
    + intros [[d Hd] _]. discriminate.
    + intros [v Hv]. discriminate.
Qed.

Lemma parse_dates_deadline (rec dl : string) (d : date) (r : option date) :
  parse_dates rec dl = Some (d, r) ->
  strptime_dmy (strip dl) = Some d
  /\ (strip rec = "" -> r = None)
  /\ (strip rec <> "" -> r = strptime_dmy (strip rec) /\ r <> None).
Proof.
  unfold parse_dates.
  destruct (strptime_dmy (strip dl)) as [d'|]; [|discriminate].
  destruct (truthy (Some (strip rec))) eqn:T.
  - apply truthy_some in T.
    destruct (strptime_dmy (strip rec)) as [r'|]; [|discriminate].
    intros [= <- <-].
    split; [reflexivity|]. split; [congruence|].
    intros _. split; congruence.
  - assert (B : strip rec = "").
    { destruct (strip rec); [reflexivity | discriminate]. }
    intros [= <- <-].
    split; [reflexivity|]. split; [reflexivity|]. congruence.
Qed.

Lemma insert_or_replace_seq (db : database) (mc mg ac : string)
    (t r : option string) (d : string) :
  seq db < seq (insert_or_replace db mc mg ac t r d).
Proof. unfold insert_or_replace; simpl. lia. Qed.

Lemma insert_or_replace_last (db : database) (mc mg ac : string)
    (t r : option string) (d : string) :
  exists record,
    table (insert_or_replace db mc mg ac t r d)
    = (filter (fun x => negb (same_key x record)) (table db) ++ [record])%list
    /\ id record = Z.max (seq db) (max_id (table db)) + 1
    /\ module_code record = mc /\ module_group record = mg
    /\ assignment_code record = ac /\ title record = t
    /\ recommend_date record = r /\ deadline_date record = d
    /\ academic_year record = "2026" /\ is_active record = true.
Proof. eexists. unfold insert_or_replace; simpl. repeat split. Qed.

Lemma stored_when_dates_parse
    (db : database) (module code rec dl : string) (rest : list string)
    (g : string) :
  find_group module_groups module = Some g ->
  let row := module :: code :: rec :: dl :: rest in
  (dates_parse rec dl
   <-> exists record, table (import_from_tsv db [row]) = [record])
  /\ (dates_parse rec dl <-> import_row db row <> db)
  /\ (dates_parse rec dl ->
      exists d record,
        strptime_dmy (strip dl) = Some d
        /\ table (import_row db row)
           = (filter (fun x => negb (same_key x record)) (table db)
                ++ [record])%list
        /\ module_code record = strip module
        /\ module_group record = g
        /\ assignment_code record = strip code
        /\ deadline_date record = isoformat d
        /\ (strip rec = "" -> recommend_date record = None)
        /\ (strip rec <> "" ->
            recommend_date record
            = option_map isoformat (strptime_dmy (strip rec))))
  /\ (strip dl = "01/12/2026" -> strip rec = "" ->
      exists record,
        table (import_from_tsv db [row]) = [record]
        /\ deadline_date record = "2026-12-01")
  /\ (strip dl = "31/02/2026" ->
      import_row db row = db /\ table (import_from_tsv db [row]) = []).
Proof.
  intros Hg row.
  assert (Step : forall st,
    import_row st row =
    match parse_dates rec dl with
    | Some (d, r) =>
        insert_or_replace st (strip module) g (strip code)
          (Some (strip module ++ " " ++ strip code))
          (option_map isoformat r) (isoformat d)
    | None => st
    end).
  { intros st. unfold row, import_row. rewrite Hg.
    destruct (parse_dates rec dl) as [[d r]|]; reflexivity. }
  assert (File : import_from_tsv db [row] = import_row (delete_all db) row)
    by reflexivity.
  split; [|split; [|split; [|split]]].
  - rewrite File, Step, parse_dates_some. split.
    + intros [[d r] E]. rewrite E.
      destruct (insert_or_replace_last (delete_all db) (strip module) g
                  (strip code) (Some (strip module ++ " " ++ strip code))
                  (option_map isoformat r) (isoformat d)) as (x & Hx & _).
      exists x. exact Hx.
    + destruct (parse_dates rec dl) as [v|]; [eauto|].
      intros [x Hx]. discriminate.
  - rewrite Step, parse_dates_some. split.
    + intros [[d r] E]. rewrite E. intros Heq.
      pose proof (insert_or_replace_seq db (strip module) g (strip code)
                    (Some (strip module ++ " " ++ strip code))
                    (option_map isoformat r) (isoformat d)) as L.
      rewrite Heq in L. lia.
    + destruct (parse_dates rec dl) as [v|]; [eauto|].
      intros N. now elim N.
  - intros P. apply parse_dates_some in P. destruct P as [[d r] E].
    destruct (parse_dates_deadline _ _ _ _ E) as (Hd & Hn & Hs).
    rewrite Step, E.
    destruct (insert_or_replace_last db (strip module) g
                (strip code) (Some (strip module ++ " " ++ strip code))
                (option_map isoformat r) (isoformat d))
      as (x & Hx & _ & Hmc & Hmg & Hac & _ & Hr & Hdl & _).
    exists d, x. repeat split; auto.
    + intros B. rewrite Hr, (Hn B). reflexivity.
    + intros B. rewrite Hr. destruct (Hs B) as [-> _]. reflexivity.
  - intros Hdl Hrec. rewrite File, Step.
    unfold parse_dates. rewrite Hdl, Hrec. simpl.
    eexists. split; reflexivity.
  - intros Hdl. rewrite File, !Step.
    unfold parse_dates. rewrite Hdl. split; reflexivity.
Qed.

Example invalid_recommended_date_drops_row :
  table (import_from_tsv init_database
           [["CM1A"; "X1"; "31/02/2026"; "01/12/2026"]]) = [].
Proof. reflexivity. Qed.

Example one_digit_day_and_month_are_read :
  map deadline_date
    (table (import_from_tsv init_database [["CM1A"; "X1"; ""; "1/2/2026"]]))
  = ["2026-02-01"].
Proof. reflexivity. Qed.

(** ** The store after ingestion *)

Lemma import_row_values (db : database) (row : list string) :
  import_row db row =
  match row_values row with
  | Some (mc, mg, ac, t, r, d, _, _) => insert_or_replace db mc mg ac t r d
  | None => db
  end.
Proof.
  unfold import_row, row_values.
  destruct row as [|m [|c [|r [|d rest]]]]; auto.
  destruct (find_group module_groups m); auto.
  destruct (parse_dates r d) as [[x y]|]; auto.
Qed.

Lemma row_values_defaults (row : list string) mc mg ac t r d ay act :
  row_values row = Some (mc, mg, ac, t, r, d, ay, act) ->
  ay = "2026" /\ act = true.
Proof.
  unfold row_values.
  destruct row as [|m [|c [|rr [|dd rest]]]]; try discriminate.
  destruct (find_group module_groups m); try discriminate.
  destruct (parse_dates rr dd) as [[x y]|]; try discriminate.
  intros [= _ _ _ _ _ _ <- <-]. auto.
Qed.

Lemma same_key_spec (a b : deadline) :
  same_key a b = true <-> natural_key a = natural_key b.
Proof.
  unfold same_key, natural_key.
  rewrite !andb_true_iff, !String.eqb_eq. split.
  - intros [[-> ->] ->]. reflexivity.
  - intros [= -> -> ->]. auto.
Qed.

(** Deleting rows keeps the triples of the rows left distinct. *)
Lemma distinct_keys_filter (keep : deadline -> bool) (rows : list deadline) :
  NoDup (map natural_key rows) ->
  NoDup (map natural_key (filter keep rows)).
Proof.
  induction rows as [|x rows IH]; cbn [filter map]; [auto|].
  rewrite NoDup_cons_iff. intros [Hx Hl].
  destruct (keep x); cbn [map]; [|auto].
  apply NoDup_cons; [|auto].
  rewrite in_map_iff. intros (y & Hy & Hin).
  apply filter_In in Hin. apply Hx.
  rewrite in_map_iff. exists y. tauto.
Qed.

Lemma NoDup_snoc {A} (l : list A) (x : A) :
  NoDup l -> ~ In x l -> NoDup (l ++ [x]).
Proof.
  intros Hl Hx. apply NoDup_rev in Hl.
  rewrite <- (rev_involutive (l ++ [x])). apply NoDup_rev.
  rewrite rev_app_distr. simpl. constructor; auto.
  now rewrite <- in_rev.
Qed.

Lemma insert_or_replace_keys (db : database) (mc mg ac : string)
    (t r : option string) (d : string) :
  NoDup (map natural_key (table db)) ->
  NoDup (map natural_key (table (insert_or_replace db mc mg ac t r d))).
Proof.
  intros H. unfold insert_or_replace. cbn [table].
  rewrite map_app. apply NoDup_snoc.
  - now apply distinct_keys_filter.
  - intros Hin. apply in_map_iff in Hin. destruct Hin as (x & Hk & Hin).
    apply filter_In in Hin. destruct Hin as [_ Hf].
    apply negb_true_iff in Hf.
    assert (same_key x
              (mkdeadline (Z.max (seq db) (max_id (table db)) + 1) mc mg ac
                 t r d "2026" true) = true) by now apply same_key_spec.
    congruence.
Qed.

Lemma import_row_keys (db : database) (row : list string) :
  NoDup (map natural_key (table db)) ->
  NoDup (map natural_key (table (import_row db row))).
Proof.
  intros H. rewrite import_row_values.
  destruct (row_values row) as [[[[[[[[mc mg] ac] t] r] d] ay] act]|]; auto.
  now apply insert_or_replace_keys.
Qed.

Lemma fold_import_keys (rows : list (list string)) (db : database) :
  NoDup (map natural_key (table db)) ->
  NoDup (map natural_key (table (fold_left import_row rows db))).
Proof.
  revert db. induction rows as [|row rows IH]; intros db H; simpl; auto.
  apply IH. now apply import_row_keys.
Qed.

Lemma NoDup_map_same {A B} (f : A -> B) (l : list A) (x y : A) :
  NoDup (map f l) -> In x l -> In y l -> f x = f y -> x = y.
Proof.
  induction l as [|z l IH]; simpl; [tauto|].
  intros H Hx Hy E. inversion H as [|? ? Hz Hl]; subst.
  destruct Hx as [<-|Hx], Hy as [<-|Hy]; auto.
  - elim Hz. rewrite E. now apply in_map.
  - elim Hz. rewrite <- E. now apply in_map.
Qed.

(** A stored record outlives every later row of another key. *)
Lemma import_row_keeps (db : database) (row : list string) (x : deadline) :
  In x (table db) ->
  (forall v, row_values row = Some v -> key_of v <> natural_key x) ->
  In x (table (import_row db row)).
Proof.
  intros Hin Hk. rewrite import_row_values.
  destruct (row_values row) as [[[[[[[[mc mg] ac] t] r] d] ay] act]|] eqn:E;
    auto.
  destruct (row_values_defaults _ _ _ _ _ _ _ _ _ E) as [-> ->].
  unfold insert_or_replace. cbn [table].
  apply in_or_app. left. apply filter_In. split; auto.
  apply negb_true_iff. apply not_true_is_false. intros S.
  apply same_key_spec in S. apply (Hk _ eq_refl).
  unfold key_of. rewrite S. reflexivity.
Qed.

Lemma fold_import_keeps (rows : list (list string)) (db : database)
    (x : deadline) :
  In x (table db) ->
  (forall row v, In row rows -> row_values row = Some v ->
                 key_of v <> natural_key x) ->
  In x (table (fold_left import_row rows db)).
Proof.
  revert db. induction rows as [|row rows IH]; intros db Hin Hk; simpl; auto.
  apply IH.
  - apply import_row_keeps; auto. intros v. apply Hk. now left.
  - intros row' v Hr. apply Hk. now right.
Qed.

Lemma import_row_stores (db : database) (row : list string) v :
  row_values row = Some v ->
  exists record,
    In record (table (import_row db row)) /\ columns record = v.
Proof.
  intros E. rewrite import_row_values, E.
  destruct v as [[[[[[[mc mg] ac] t] r] d] ay] act].
  destruct (row_values_defaults _ _ _ _ _ _ _ _ _ E) as [-> ->].
  eexists. split.
  - unfold insert_or_replace. cbn [table]. apply in_or_app. right.
    left. reflexivity.
  - reflexivity.
Qed.

Lemma key_of_columns (r : deadline) : key_of (columns r) = natural_key r.
Proof. reflexivity. Qed.

(** C3. After ingesting any file the store holds at most one record for
    a triple (module code, assignment code, academic year).  The last
    row of a triple wins: its values are the ones stored, and of two
    rows with the same trimmed module code and assignment code only the
    record of the later one is left. *)
Theorem natural_key_last_row_wins (db : database) (rows : list (list string)) :
  NoDup (map natural_key (table (import_from_tsv db rows)))
  /\ (forall before row after v,
        rows = (before ++ row :: after)%list ->
        row_values row = Some v ->
        (forall row' v', In row' after -> row_values row' = Some v' ->
                         key_of v' <> key_of v) ->
        exists record,
          In record (table (import_from_tsv db rows))
          /\ columns record = v
          /\ forall other,
               In other (table (import_from_tsv db rows)) ->
               natural_key other = natural_key record -> other = record)
  /\ (forall row1 row2 v1 v2,
        row_values row1 = Some v1 -> row_values row2 = Some v2 ->
        key_of v1 = key_of v2 ->
        exists record,
          table (import_from_tsv db [row1; row2]) = [record]
          /\ columns record = v2).
Proof.
  assert (K : forall l, NoDup (map natural_key (table (import_from_tsv db l)))).
  { intros l. apply fold_import_keys. simpl. constructor. }
  split; [apply K|]. split.
  - intros before row after v -> Hv Hafter.
    unfold import_from_tsv. rewrite fold_left_app. cbn [fold_left].
    destruct (import_row_stores
                (fold_left import_row before (delete_all db)) row v Hv)
      as (record & Hin & Hc).
    exists record.
    assert (In record (table (fold_left import_row after
              (import_row (fold_left import_row before (delete_all db)) row)))).
    { apply fold_import_keeps; auto.
      intros row' v' Hr Hv'. rewrite <- key_of_columns, Hc. eauto. }
    split; [assumption|]. split; [assumption|].
    intros other Ho Hk.
    pose proof (K (before ++ row :: after)%list) as N.
    unfold import_from_tsv in N. rewrite fold_left_app in N.
    cbn [fold_left] in N.
    eapply NoDup_map_same; eauto.
  - intros row1 row2 v1 v2 H1 H2 Hk.
    unfold import_from_tsv. cbn [fold_left].
    rewrite !import_row_values, H1.
    destruct v1 as [[[[[[[mc1 mg1] ac1] t1] r1] d1] ay1] act1].
    rewrite H2.
    destruct v2 as [[[[[[[mc2 mg2] ac2] t2] r2] d2] ay2] act2].
    destruct (row_values_defaults _ _ _ _ _ _ _ _ _ H1) as [-> ->].
    destruct (row_values_defaults _ _ _ _ _ _ _ _ _ H2) as [-> ->].
    simpl in Hk. injection Hk as -> ->.
    unfold insert_or_replace, delete_all. cbn [table seq filter app].
    unfold same_key. cbn [module_code assignment_code academic_year].
    rewrite !String.eqb_refl. cbn [andb negb app].
    eexists. split; reflexivity.
Qed.

Lemma natural_key_last_row_wins_witness :
  exists record,
    table (import_from_tsv init_database
             [["cm1a"; "X1"; ""; "01/12/2026"];
              [" cm1a"; "X1 "; "02/11/2026"; "03/12/2026"]]) = [record]
    /\ columns record
       = ("cm1a", "CM1", "X1", Some "cm1a X1", Some "2026-11-02",
          "2026-12-03", "2026", true).
Proof.
  refine (proj2 (proj2 (natural_key_last_row_wins init_database []))
            ["cm1a"; "X1"; ""; "01/12/2026"]
            [" cm1a"; "X1 "; "02/11/2026"; "03/12/2026"]
            _ _ eq_refl eq_refl eq_refl).
Defined.

(** ** Ingesting again *)

Lemma same_key_columns (a a' b b' : deadline) :
  columns a = columns a' -> columns b = columns b' ->
  same_key a b = same_key a' b'.
Proof.
  unfold columns, same_key. intros [= -> _ -> _ _ _ -> _] [= -> _ -> _ _ _ -> _].
  reflexivity.
Qed.

Lemma filter_key_columns (l1 l2 : list deadline) (n1 n2 : deadline) :
  map columns l1 = map columns l2 -> columns n1 = columns n2 ->
  map columns (filter (fun x => negb (same_key x n1)) l1)
  = map columns (filter (fun x => negb (same_key x n2)) l2).
Proof.
  revert l2. induction l1 as [|a l1 IH]; intros [|b l2] H Hn;
    try discriminate; auto.
  assert (Hab : columns a = columns b)
    by exact (f_equal (hd (columns a)) H).
  assert (Hl : map columns l1 = map columns l2)
    by exact (f_equal (@tl _) H).
  cbn [filter].
  rewrite (same_key_columns a b n1 n2 Hab Hn).
  destruct (same_key b n2); cbn [negb map]; auto.
  rewrite Hab. f_equal. auto.
Qed.

Lemma import_row_columns (db1 db2 : database) (row : list string) :
  map columns (table db1) = map columns (table db2) ->
  map columns (table (import_row db1 row))
  = map columns (table (import_row db2 row)).
Proof.
  intros H. rewrite !import_row_values.
  destruct (row_values row) as [[[[[[[[mc mg] ac] t] r] d] ay] act]|]; auto.
  unfold insert_or_replace. cbn [table]. rewrite !map_app. f_equal.
  now apply filter_key_columns.
Qed.

Lemma fold_import_columns (rows : list (list string)) (db1 db2 : database) :
  map columns (table db1) = map columns (table db2) ->
  map columns (table (fold_left import_row rows db1))
  = map columns (table (fold_left import_row rows db2)).
Proof.
  revert db1 db2. induction rows as [|row rows IH]; intros db1 db2 H; auto.
  simpl. apply IH. now apply import_row_columns.
Qed.

(** What ingestion leaves does not depend on what the store held. *)
Lemma import_from_tsv_columns (db1 db2 : database) (rows : list (list string)) :
  map columns (table (import_from_tsv db1 rows))
  = map columns (table (import_from_tsv db2 rows)).
Proof. unfold import_from_tsv. now apply fold_import_columns. Qed.

(** C4, as the code has it.  Ingestion deletes every row and inserts the
    rows parsed from the file: what it leaves does not depend on what the
    store held, and ingesting a file a second time leaves the same
    records, column for column and in the same order, as ingesting it
    once.  The key [id] is not among these columns: SQLite never hands a
    key out twice. *)
Theorem ingest_twice_same_columns (db : database) (rows : list (list string)) :
  table (delete_all db) = []
  /\ map columns (table (import_from_tsv (import_from_tsv db rows) rows))
     = map columns (table (import_from_tsv db rows))
  /\ map columns (table (import_from_tsv db rows))
     = map columns (table (import_from_tsv init_database rows)).
Proof.
  split; [reflexivity|]. split; apply import_from_tsv_columns.
Qed.

(** C4 as stated fails: the record of the second run is not
    the record of the first, its key is 2 where it was 1. *)
Lemma ingest_twice_moves_ids :
  map id (table (import_from_tsv init_database
                   [["CM1A"; "X1"; ""; "01/12/2026"]])) = [1]
  /\ map id (table (import_from_tsv
                     (import_from_tsv init_database
                        [["CM1A"; "X1"; ""; "01/12/2026"]])
                     [["CM1A"; "X1"; ""; "01/12/2026"]])) = [2]
  /\ import_from_tsv
       (import_from_tsv init_database [["CM1A"; "X1"; ""; "01/12/2026"]])
       [["CM1A"; "X1"; ""; "01/12/2026"]]
     <> import_from_tsv init_database [["CM1A"; "X1"; ""; "01/12/2026"]].
Proof.
  split; [reflexivity|]. split; [reflexivity|].
  intros H. apply (f_equal seq) in H. vm_compute in H. discriminate.
Qed.

(** ** Dates: what [isoformat] writes, [strptime] reads back *)

Lemma digit_value_dec_digit (n : Z) :
  digit_value (dec_digit n) = Some (n mod 10).
Proof.
  unfold digit_value, dec_digit, code.
  pose proof (Z.mod_pos_bound n 10 ltac:(lia)) as B.
  rewrite N_ascii_embedding by lia.
  rewrite Z2N.id by lia.
  replace ((48 <=? 48 + n mod 10) && (48 + n mod 10 <=? 57)) with true.
  - f_equal. lia.
  - symmetry. apply andb_true_iff. split; apply Z.leb_le; lia.
Qed.

Lemma is_digit_dec_digit (n : Z) : is_digit (dec_digit n) = true.
Proof. unfold is_digit. now rewrite digit_value_dec_digit. Qed.

Lemma isoformat_shape (d : date) : is_iso_shape (isoformat d) = true.
Proof.
  unfold isoformat, pad4, pad2. cbn [append is_iso_shape].
  now rewrite !is_digit_dec_digit.
Qed.

Lemma valid_date_bounds (d : date) :
  valid_date d ->
  1 <= year d <= 9999 /\ 1 <= month d <= 12 /\ 1 <= day d <= 31.
Proof.
  unfold valid_date, make_date.
  destruct ((1 <=? year d) && (year d <=? 9999) && (1 <=? month d)
            && (month d <=? 12) && (1 <=? day d)
            && (day d <=? days_in_month (year d) (month d))) eqn:E;
    [|discriminate].
  intros _. rewrite !andb_true_iff, !Z.leb_le in E.
  assert (days_in_month (year d) (month d) <= 31).
  { unfold days_in_month.
    destruct (month d =? 2); [destruct (is_leap (year d)); lia|].
    destruct ((month d =? 4) || (month d =? 6) || (month d =? 9)
              || (month d =? 11)); lia. }
  lia.
Qed.

Lemma make_date_valid (y m d : Z) (x : date) :
  make_date y m d = Some x -> valid_date x.
Proof.
  unfold valid_date. intros H. pose proof H as H'. unfold make_date in H'.
  destruct ((1 <=? y) && (y <=? 9999) && (1 <=? m) && (m <=? 12)
            && (1 <=? d) && (d <=? days_in_month y m)); [|discriminate].
  injection H' as <-. exact H.
Qed.

Lemma strptime_dmy_valid (s : string) (x : date) :
  strptime_dmy s = Some x -> valid_date x.
Proof.
  unfold strptime_dmy.
  destruct (re_match fmt_dmy s) as [[[|d [|m [|y [|? ?]]]] [|? ?]]|];
    try discriminate.
  apply make_date_valid.
Qed.

Lemma branches_year (a b c e : ascii) (r : string) (x y z w : Z) :
  digit_value a = Some x -> digit_value b = Some y ->
  digit_value c = Some z -> digit_value e = Some w ->
  branches dir_Y (String a (String b (String c (String e r))))
  = [(1000 * x + 100 * y + 10 * z + w, r)].
Proof. intros Ha Hb Hc He. simpl. now rewrite Ha, Hb, Hc, He. Qed.

Lemma four_digits (y : Z) :
  0 <= y <= 9999 ->
  1000 * ((y / 1000) mod 10) + 100 * ((y / 100) mod 10)
  + 10 * ((y / 10) mod 10) + y mod 10 = y.
Proof. intros H. Z.div_mod_to_equations. lia. Qed.

Lemma month_day_read_back (m d : Z) :
  1 <= m <= 12 -> 1 <= d <= 31 ->
  re_match [dir_lit "-"; dir_m; dir_lit "-"; dir_d]
    (String "-" (pad2 m ++ String "-" (pad2 d)))
  = Some ([m; d], "").
Proof.
  intros Hm Hd.
  assert (M : m = 1 \/ m = 2 \/ m = 3 \/ m = 4 \/ m = 5 \/ m = 6 \/ m = 7
              \/ m = 8 \/ m = 9 \/ m = 10 \/ m = 11 \/ m = 12) by lia.
  assert (D : d = 1 \/ d = 2 \/ d = 3 \/ d = 4 \/ d = 5 \/ d = 6 \/ d = 7
              \/ d = 8 \/ d = 9 \/ d = 10 \/ d = 11 \/ d = 12 \/ d = 13
              \/ d = 14 \/ d = 15 \/ d = 16 \/ d = 17 \/ d = 18 \/ d = 19
              \/ d = 20 \/ d = 21 \/ d = 22 \/ d = 23 \/ d = 24 \/ d = 25
              \/ d = 26 \/ d = 27 \/ d = 28 \/ d = 29 \/ d = 30 \/ d = 31)
    by lia.
  clear Hm Hd.
  repeat (destruct M as [->|M]); try subst m;
    repeat (destruct D as [->|D]); try subst d; reflexivity.
Qed.

(** The text ingestion stores for a date is read back by the feed as
    that date. *)
Lemma strptime_isoformat (d : date) :
  valid_date d -> strptime_ymd (isoformat d) = Some d.
Proof.
  intros V. destruct (valid_date_bounds d V) as (Hy & Hm & Hd).
  unfold strptime_ymd, isoformat, pad4, fmt_ymd.
  cbn [append].
  change (re_match (dir_Y :: ?f) ?s)
    with (first_some
            (fun '(v, r) =>
               match re_match f r with
               | Some (vs, rest) => Some (v :: vs, rest)
               | None => None
               end) (branches dir_Y s)).
  erewrite branches_year by apply digit_value_dec_digit.
  cbn [first_some].
  rewrite month_day_read_back by lia.
  rewrite four_digits by lia.
  destruct d as [y m dd]. exact V.
Qed.

(** ** What ingestion stores *)

Lemma row_values_imported (row : list string) mc mg ac t r d ay act (n : Z) :
  row_values row = Some (mc, mg, ac, t, r, d, ay, act) ->
  imported (mkdeadline n mc mg ac t r d ay act).
Proof.
  unfold row_values.
  destruct row as [|m [|c [|rr [|dd rest]]]]; try discriminate.
  destruct (find_group module_groups m) as [g|] eqn:G; try discriminate.
  destruct (parse_dates rr dd) as [[x y]|] eqn:P; try discriminate.
  intros [= <- <- <- <- <- <- <- <-].
  destruct (find_group_in _ _ _ G) as [Hin _].
  destruct (parse_dates_deadline _ _ _ _ P) as (Hx & Hn & Hs).
  unfold imported; cbn.
  split; [exact Hin|]. split.
  { exists x. split; [eapply strptime_dmy_valid; eauto | reflexivity]. }
  split; [|auto].
  destruct y as [y|]; [right | now left].
  exists y. split; [|reflexivity].
  destruct (string_dec (strip rr) "") as [B|B].
  - specialize (Hn B). discriminate.
  - destruct (Hs B) as [E _]. eapply strptime_dmy_valid. symmetry; eauto.
Qed.

Lemma import_row_imported (db : database) (row : list string) :
  Forall imported (table db) -> Forall imported (table (import_row db row)).
Proof.
  intros H. rewrite import_row_values.
  destruct (row_values row) as [[[[[[[[mc mg] ac] t] r] d] ay] act]|] eqn:E;
    auto.
  destruct (row_values_defaults _ _ _ _ _ _ _ _ _ E) as [-> ->].
  unfold insert_or_replace. cbn [table].
  apply Forall_app. split.
  - apply Forall_forall. intros x Hx. apply filter_In in Hx.
    rewrite Forall_forall in H. now apply H.
  - constructor; [|constructor]. eapply row_values_imported; eauto.
Qed.

Lemma import_from_tsv_imported (db : database) (rows : list (list string)) :
  Forall imported (table (import_from_tsv db rows)).
Proof.
  unfold import_from_tsv.
  assert (H : Forall imported (table (delete_all db))) by constructor.
  revert H. generalize (delete_all db).
  induction rows as [|row rows IH]; intros st H; simpl; auto.
  apply IH. now apply import_row_imported.
Qed.

(** ** Queries *)



Lemma insert_sorted_perm {A} (key : A -> list string) (x : A) (l : list A) :
  Permutation (insert_sorted key x l) (x :: l).
Proof.
  induction l as [|y l IH]; simpl; auto.
  destruct (key_leb (key x) (key y)); auto.
  rewrite IH. apply perm_swap.
Qed.

Lemma order_by_perm {A} (key : A -> list string) (l : list A) :
  Permutation (order_by key l) l.
Proof.
  unfold order_by. induction l as [|x l IH]; simpl; auto.
  rewrite insert_sorted_perm. now constructor.
Qed.

Lemma order_by_in {A} (key : A -> list string) (l : list A) (x : A) :
  In x (order_by key l) <-> In x l.
Proof.
  split; apply Permutation_in;
    [apply order_by_perm | apply Permutation_sym, order_by_perm].
Qed.


Lemma truthy_false (s : string) : truthy (Some s) = false <-> s = "".
Proof. destruct s; simpl; split; congruence. Qed.

Lemma get_deadlines_group (db : database) (g : string) :
  g <> "" ->
  get_deadlines_by_group db (Some g)
  = map select_columns (group_records db (upper g)).
Proof.
  intros H. unfold get_deadlines_by_group.
  apply truthy_some in H. now rewrite H.
Qed.

Lemma get_deadlines_all (db : database) :
  get_deadlines_by_group db None = map select_columns (all_records db).
Proof. reflexivity. Qed.

Lemma get_deadlines_blank (db : database) :
  get_deadlines_by_group db (Some "") = map select_columns (all_records db).
Proof. reflexivity. Qed.

Lemma group_records_in (db : database) (G : string) (r : deadline) :
  In r (group_records db G)
  <-> In r (table db) /\ module_group r = G /\ is_active r = true.
Proof.
  unfold group_records. rewrite order_by_in, filter_In, andb_true_iff.
  rewrite String.eqb_eq. tauto.
Qed.

Lemma all_records_in (db : database) (r : deadline) :
  In r (all_records db) <-> In r (table db) /\ is_active r = true.
Proof. unfold all_records. now rewrite order_by_in, filter_In. Qed.


(** ** The JSON list of deadlines *)



Lemma serve_deadlines_no_group (db : database) :
  serve_deadlines db []
  = deadlines_response
      (map format_deadline (map select_columns (all_records db))).
Proof. reflexivity. Qed.




Example deadlines_for_cm1_in_lower_case :
  content (serve_deadlines
             (import_from_tsv init_database
                [["CM1A"; "X1"; ""; "01/12/2026"];
                 ["SP1"; "X2"; ""; "02/12/2026"]])
             [("group", ("cm1", []))])
  = json_text (JObj [("deadlines",
      JArr [JObj [("module_code", JStr "CM1A");
                  ("assignment_code", JStr "X1");
                  ("title", JStr "CM1A X1");
                  ("deadline_date", JStr "2026-12-01");
                  ("recommend_date", JNull)]])]).
Proof. reflexivity. Qed.

Lemma get_deadlines_records (db : database) (group : option string) :
  exists records,
    get_deadlines_by_group db group = map select_columns records
    /\ (forall r, In r records -> In r (table db)).
Proof.
  destruct group as [g|].
  - destruct (string_dec g "") as [->|N].
    + exists (all_records db). split; [reflexivity|].
      intros r Hr. now apply all_records_in in Hr.
    + exists (group_records db (upper g)).
      split; [now apply get_deadlines_group|].
      intros r Hr. now apply group_records_in in Hr.
  - exists (all_records db). split; [reflexivity|].
    intros r Hr. now apply all_records_in in Hr.
Qed.

Lemma format_deadline_imported (r : deadline) :
  imported r -> format_deadline (select_columns r) = deadline_entry r.
Proof.
  intros (_ & _ & _ & T & _). unfold format_deadline, select_columns,
    deadline_entry.
  rewrite T. reflexivity.
Qed.

(** C7, as the code has it.  Every entry of [/api/deadlines] has the five
    members module_code, assignment_code, title, deadline_date and
    recommend_date, in this order; deadline_date is a text of the shape
    YYYY-MM-DD; recommend_date is always there: a text of that shape for
    a record with a recommended date and [null] for a record without. *)
Theorem deadlines_entry_shape
    (db0 : database) (rows : list (list string)) (query_params : query) :
  exists records,
    do_GET (import_from_tsv db0 rows) "/api/deadlines" query_params
    = Some (deadlines_response (map deadline_entry records))
    /\ Forall (fun r =>
                 In r (table (import_from_tsv db0 rows))
                 /\ is_iso_shape (deadline_date r) = true
                 /\ (forall s, recommend_date r = Some s ->
                               is_iso_shape s = true)
                 /\ (recommend_date r = None ->
                     In ("recommend_date", JNull)
                        match deadline_entry r with
                        | JObj members => members
                        | _ => []
                        end))
              records.
Proof.
  set (db := import_from_tsv db0 rows).
  pose proof (import_from_tsv_imported db0 rows) as I. fold db in I.
  rewrite Forall_forall in I.
  change (do_GET db "/api/deadlines" query_params)
    with (Some (serve_deadlines db query_params)).
  unfold serve_deadlines.
  match goal with
  | |- context [get_deadlines_by_group db ?g] =>
      destruct (get_deadlines_records db g) as (records & E & Hin)
  end.
  exists records. rewrite E. split.
  - unfold deadlines_response. rewrite map_map.
    rewrite (map_ext_in (fun x => format_deadline (select_columns x))
               deadline_entry records); [reflexivity|].
    intros r Hr. apply format_deadline_imported. auto.
  - apply Forall_forall. intros r Hr.
    destruct (I r (Hin r Hr)) as (_ & (d & _ & Hd) & Hrec & _).
    split; [auto|]. split; [rewrite Hd; apply isoformat_shape|]. split.
    + intros s Hs. destruct Hrec as [N|(d' & _ & Hd')]; [congruence|].
      rewrite Hs in Hd'. injection Hd' as ->. apply isoformat_shape.
    + intros N. unfold deadline_entry. rewrite N. simpl. auto 10.
Qed.

(** C7 as stated fails: the entry of a record without a
    recommended date has the member recommend_date, with the value
    [null]. *)
Lemma deadlines_entry_null_recommend_date :
  map recommend_date
    (table (import_from_tsv init_database [["CM1A"; "X1"; ""; "01/12/2026"]]))
  = [None]
  /\ do_GET (import_from_tsv init_database [["CM1A"; "X1"; ""; "01/12/2026"]])
       "/api/deadlines" []
     = Some (deadlines_response
               [JObj [("module_code", JStr "CM1A");
                      ("assignment_code", JStr "X1");
                      ("title", JStr "CM1A X1");
                      ("deadline_date", JStr "2026-12-01");
                      ("recommend_date", JNull)]]).
Proof. split; reflexivity. Qed.

(** ** Calendar feeds *)


Lemma imported_date (r : deadline) :
  imported r -> exists d, strptime_ymd (deadline_date r) = Some d.
Proof.
  intros (_ & (d & V & E) & _). exists d. rewrite E.
  now apply strptime_isoformat.
Qed.






Lemma imported_sublist (db : database) (l : list deadline) :
  Forall imported (table db) -> (forall r, In r l -> In r (table db)) ->
  Forall imported l.
Proof.
  intros I H. rewrite Forall_forall in *. auto.
Qed.



(** The uid of a record ingestion stored is its two codes, the ten
    characters of the date, two hyphens and the nineteen characters of
    the suffix. *)
Lemma length_append_text (s t : string) :
  String.length (s ++ t) = (String.length s + String.length t)%nat.
Proof. induction s as [|c s IH]; simpl; [reflexivity | now rewrite IH]. Qed.

Lemma uid_fits_lengths (r : deadline) :
  imported r ->
  (uid_fits r = true
   <-> (String.length (module_code r) + String.length (assignment_code r)
        <= 1402)%nat).
Proof.
  intros (_ & (d & _ & E) & _). unfold uid_fits, event_uid, max_str_digits.
  rewrite E, !length_append_text. unfold isoformat.
  rewrite !length_append_text.
  cbn [String.length pad2 pad4 Nat.add]. rewrite Z.leb_le. lia.
Qed.




(** A module code of 1401 characters passes ingestion, and the uid of
    its event, 1434 characters long, is one the set cannot hash: the
    feed of the group and the feed of every group raise. *)
Example feed_fails_on_a_long_module_code :
  let db := import_from_tsv init_database
              [["CM1" ++ replicate 1398 "A"; "X1"; ""; "01/12/2026"]] in
  map module_group (table db) = ["CM1"]
  /\ map (fun r => String.length (event_uid r)) (table db) = [1434%nat]
  /\ do_GET db "/calendar/cm1.ics" [] = None
  /\ do_GET db "/calendar/all.ics" [] = None
  /\ get_module_groups db = ["CM1"].
Proof. vm_compute. repeat split. Qed.

Example two_records_of_one_uid_are_two_events :
  option_map
    (fun r => match content r with
              | ics_text cal => map (fun e => (name e, uid e)) (events cal)
              | _ => []
              end)
    (do_GET
       (import_from_tsv init_database
          [["CM1"; "A-X1"; ""; "01/12/2026"]; ["CM1-A"; "X1"; ""; "01/12/2026"]])
       "/calendar/cm1.ics" [])
  = Some [("CM1 A-X1 deadline", Some "CM1-A-X1-2026-12-01@deadlines-calendar");
          ("CM1-A X1 deadline", Some "CM1-A-X1-2026-12-01@deadlines-calendar")].
Proof. reflexivity. Qed.

(** ** The static generator *)

Section StaticGenerator.
Variables (month : string) (year : Z).

Lemma initial_calendars_empty :
  initial_calendars month year = static_calendars month year (fun _ => []).
Proof. reflexivity. Qed.

Lemma events_add_fresh (cal : Calendar) (ev : Event) :
  uid ev = None ->
  events_add cal ev = mkCalendar (creator cal) (extra cal) (events cal ++ [ev]).
Proof.
  intros _. reflexivity.
Qed.

Lemma add_row_cals (f : string -> list Event) (row : list string) :
  add_row module_groups (static_calendars month year f) row
  = static_calendars month year (fun g => (f g ++ row_event g row)%list).
Proof.
  unfold add_row, row_event.
  assert (Same : static_calendars month year f
                 = static_calendars month year (fun g => (f g ++ [])%list)).
  { unfold static_calendars, module_groups. cbn [map]. now rewrite !app_nil_r. }
  destruct row as [|module [|code [|rec [|dl rest]]]]; try exact Same.
  destruct (parse_date dl) as [start|]; [|exact Same].
  rewrite add_to_first_find.
  destruct (find_group module_groups module) as [g'|] eqn:G; [|exact Same].
  apply find_group_in in G. destruct G as [G _].
  unfold module_groups in G. simpl in G.
  repeat (destruct G as [<-|G];
          [unfold static_calendars, module_groups;
           cbn [map update String.eqb Ascii.eqb Bool.eqb andb];
           rewrite events_add_fresh by reflexivity;
           rewrite !app_nil_r; reflexivity|]).
  contradiction.
Qed.

Lemma cals_ext (f h : string -> list Event) :
  (forall g, f g = h g) ->
  static_calendars month year f = static_calendars month year h.
Proof.
  intros E. unfold static_calendars. apply map_ext. intros g. now rewrite E.
Qed.

Lemma fold_add_row_cals (rows : list (list string)) (f : string -> list Event) :
  fold_left (add_row module_groups) rows (static_calendars month year f)
  = static_calendars month year (fun g => (f g ++ static_events rows g)%list).
Proof.
  revert f. induction rows as [|row rows IH]; intros f; cbn [fold_left].
  - apply cals_ext. intros g. simpl. now rewrite app_nil_r.
  - rewrite add_row_cals, IH. apply cals_ext. intros g.
    simpl. now rewrite app_assoc.
Qed.

Lemma fill_calendars_events (rows : list (list string)) :
  fill_calendars rows month year
  = static_calendars month year (static_events rows).
Proof.
  unfold fill_calendars. rewrite static_keys, initial_calendars_empty.
  rewrite fold_add_row_cals. now apply cals_ext.
Qed.

Lemma write_calendars_cals (f : string -> list Event) :
  write_calendars (module_files month year) (static_calendars month year f)
  = flat_map (fun g => group_output month year g (f g)) module_groups.
Proof.
  unfold static_calendars, module_groups. cbn [map flat_map write_calendars].
  unfold group_output.
  cbn [static_calendar events lookup module_files String.eqb Ascii.eqb
       Bool.eqb andb].
  repeat match goal with
         | |- context [match f ?g with _ => _ end] => destruct (f g)
         end; reflexivity.
Qed.

End StaticGenerator.

Lemma group_output_write (month : string) (year : Z) (g : string)
    (evs : list Event) (file_name : string) (cal : Calendar) :
  In (WriteFile file_name cal) (group_output month year g evs)
  <-> evs <> [] /\ file_name = static_file_name g month year
      /\ cal = static_calendar month year g evs.
Proof.
  unfold group_output. destruct evs as [|e evs]; simpl.
  - split; [tauto | intros [H _]; congruence].
  - split.
    + intros [[= <- <-]|[[=]|[]]]. repeat split. discriminate.
    + intros (_ & -> & ->). now left.
Qed.

Lemma group_output_print (month : string) (year : Z) (g : string)
    (evs : list Event) (line : string) :
  In (Print line) (group_output month year g evs)
  <-> evs <> []
      /\ line = "ICS file written to " ++ static_file_name g month year.
Proof.
  unfold group_output. destruct evs as [|e evs]; simpl.
  - split; [tauto | intros [H _]; congruence].
  - split.
    + intros [[=]|[[= <-]|[]]]. split; [discriminate | reflexivity].
    + intros (_ & ->). right. now left.
Qed.

Lemma row_event_some (g : string) (row : list string) :
  row_event g row <> []
  <-> exists module code rec dl rest start,
        row = module :: code :: rec :: dl :: rest
        /\ parse_date dl = Some start
        /\ find_group module_groups module = Some g.
Proof.
  unfold row_event. split.
  - destruct row as [|module [|code [|rec [|dl rest]]]];
      try (intros H; now elim H).
    destruct (parse_date dl) as [start|] eqn:P; [|intros H; now elim H].
    destruct (find_group module_groups module) as [g'|] eqn:G;
      [|intros H; now elim H].
    destruct (String.eqb_spec g' g) as [->|]; [|intros H; now elim H].
    intros _. exists module, code, rec, dl, rest, start. auto.
  - intros (module & code & rec & dl & rest & start & -> & -> & ->).
    rewrite String.eqb_refl. discriminate.
Qed.

Lemma static_events_some (rows : list (list string)) (g : string) :
  static_events rows g <> []
  <-> exists module code rec dl rest start,
        In (module :: code :: rec :: dl :: rest) rows
        /\ parse_date dl = Some start
        /\ find_group module_groups module = Some g.
Proof.
  unfold static_events. induction rows as [|row rows IH]; simpl.
  - split; [congruence|]. intros (? & ? & ? & ? & ? & ? & [] & _).
  - split.
    + intros H. destruct (row_event g row) as [|e l] eqn:E.
      * simpl in H. apply IH in H.
        destruct H as (m & c & r & d & rest & st & Hin & K).
        exists m, c, r, d, rest, st. split; [now right | exact K].
      * assert (N : row_event g row <> []) by congruence.
        apply row_event_some in N.
        destruct N as (m & c & r & d & rest & st & -> & K).
        exists m, c, r, d, rest, st. split; [now left | exact K].
    + intros (m & c & r & d & rest & st & [->|Hin] & H).
      * assert (N : row_event g (m :: c :: r :: d :: rest) <> []).
        { apply row_event_some. exists m, c, r, d, rest, st. auto. }
        destruct (row_event g (m :: c :: r :: d :: rest)); [congruence|].
        discriminate.
      * assert (N : flat_map (row_event g) rows <> []).
        { apply IH. exists m, c, r, d, rest, st. auto. }
        intros E. apply app_eq_nil in E. tauto.
Qed.

(** C6. The static generator writes, group by group in the order of the
    ten groups, one file for each group whose calendar holds an event,
    named "{GROUP} Assignment Deadlines {Month} {Year}.ics" and holding
    that calendar, and prints one line for the file after it; a group
    without an event gets no file and no line.  A group holds an event
    exactly when a row of four fields or more has a deadline that parses
    and a module code of the group. *)
Theorem static_file_emission
    (rows : list (list string)) (year : Z) (month : string) :
  generate_static_files rows year month
  = flat_map (fun g => group_output month year g (static_events rows g))
      module_groups
  /\ (forall file_name cal,
        In (WriteFile file_name cal) (generate_static_files rows year month)
        <-> exists g,
              In g module_groups /\ static_events rows g <> []
              /\ file_name = static_file_name g month year
              /\ cal = static_calendar month year g (static_events rows g))
  /\ (forall line,
        In (Print line) (generate_static_files rows year month)
        <-> exists g,
              In g module_groups /\ static_events rows g <> []
              /\ line = "ICS file written to "
                          ++ static_file_name g month year)
  /\ (forall g,
        static_events rows g <> []
        <-> exists module code rec dl rest start,
              In (module :: code :: rec :: dl :: rest) rows
              /\ parse_date dl = Some start
              /\ find_group module_groups module = Some g).
Proof.
  assert (E : generate_static_files rows year month
              = flat_map (fun g => group_output month year g
                                     (static_events rows g)) module_groups).
  { unfold generate_static_files.
    now rewrite fill_calendars_events, write_calendars_cals. }
  split; [exact E|]. rewrite E. split; [|split].
  - intros file_name cal. rewrite in_flat_map. split.
    + intros (g & Hg & Hin). apply group_output_write in Hin.
      exists g. tauto.
    + intros (g & Hg & H). exists g. split; [exact Hg|].
      now apply group_output_write.
  - intros line. rewrite in_flat_map. split.
    + intros (g & Hg & Hin). apply group_output_print in Hin.
      exists g. tauto.
    + intros (g & Hg & H). exists g. split; [exact Hg|].
      now apply group_output_print.
  - intros g. apply static_events_some.
Qed.

Lemma static_file_emission_witness :
  map (fun e => match e with
                | WriteFile file_name _ => file_name
                | Print line => line
                | _ => ""
                end)
    (generate_static_files
       [["CM1A"; "X1"; ""; "01/12/2026"]; ["XX"; "X1"; ""; "01/12/2026"];
        ["CB1"; "X2"; "oops"; "02/12/2026"]; ["SP1"; "X3"; ""; "31/02/2026"]]
       2026 "September")
  = ["CM1 Assignment Deadlines September 2026.ics";
     "ICS file written to CM1 Assignment Deadlines September 2026.ics";
     "CB Assignment Deadlines September 2026.ics";
     "ICS file written to CB Assignment Deadlines September 2026.ics"].
Proof.
  rewrite (proj1 (static_file_emission
                    [["CM1A"; "X1"; ""; "01/12/2026"];
                     ["XX"; "X1"; ""; "01/12/2026"];
                     ["CB1"; "X2"; "oops"; "02/12/2026"];
                     ["SP1"; "X3"; ""; "31/02/2026"]] 2026 "September")).
  reflexivity.
Defined.

(** ** The command line of the conversion tool *)

Lemma main_start_server (fs : string -> option (list (list string)))
    (args : arguments) :
  arg_start_server args = true -> main fs args = ([ServerMain], Return).
Proof. intros H. unfold main. now rewrite H. Qed.

(** No run both imports and serves: the branch of [main] that starts the
    server after the import is never reached. *)
Lemma main_never_imports_and_serves
    (fs : string -> option (list (list string))) (args : arguments)
    (db_path : string) (rows : list (list string)) :
  In (ImportDb db_path rows) (fst (main fs args)) ->
  ~ In ServerMain (fst (main fs args)).
Proof.
  unfold main. destruct (arg_start_server args) eqn:S.
  - simpl. intros [H|[]]. discriminate.
  - destruct (input_path args) as [path|]; [|simpl; intros [H|[]]; discriminate].
    destruct (negb (truthy (Some path)));
      [simpl; intros [H|[]]; discriminate|].
    destruct (fs path) as [rows'|]; [|simpl; intros [H|[]]; discriminate].
    destruct (to_database args).
    + intros _. simpl. intros [H|[H|[H|[H|[]]]]]; discriminate.
    + intros H. exfalso. revert H.
      match goal with
      | |- context [if ?c then _ else _] => destruct c
      end; [simpl; intros [H|[]]; discriminate|].
      match goal with
      | |- context [if ?c then _ else _] => destruct c
      end; [simpl; intros [H|[]]; discriminate|].
      cbn [fst]. unfold generate_static_files.
      rewrite fill_calendars_events, write_calendars_cals. intros H.
      apply in_flat_map in H. destruct H as (g & _ & H).
      unfold group_output in H.
      destruct (static_events rows' g); simpl in H; [tauto|].
      destruct H as [H|[H|[]]]; discriminate.
Qed.

(** C8, on the code.  With [--start-server], and so with
    [--to-database] and [--start-server] together on an existing file,
    [main] starts the server and returns: nothing is imported before, and
    nothing after. *)
Theorem combined_flags_start_server_only
    (fs : string -> option (list (list string))) (args : arguments)
    (path : string) (rows : list (list string)) :
  input_path args = Some path -> fs path = Some rows ->
  to_database args = true -> arg_start_server args = true ->
  main fs args = ([ServerMain], Return)
  /\ forall db_path rows', ~ In (ImportDb db_path rows') (fst (main fs args)).
Proof.
  intros _ _ _ S. rewrite (main_start_server fs args S). split; [reflexivity|].
  intros db_path rows' [H|[]]. discriminate.
Qed.

Lemma combined_flags_start_server_only_witness :
  main (fun _ => Some [["CM1A"; "X1"; ""; "01/12/2026"]])
    (mkargs (Some "deadlines.tsv") None None true true)
  = ([ServerMain], Return).
Proof.
  exact (proj1 (combined_flags_start_server_only
                  (fun _ => Some [["CM1A"; "X1"; ""; "01/12/2026"]])
                  (mkargs (Some "deadlines.tsv") None None true true)
                  "deadlines.tsv" [["CM1A"; "X1"; ""; "01/12/2026"]]
                  eq_refl eq_refl eq_refl eq_refl)).
Defined.

(** Without [--start-server] the import runs and the tool returns. *)
Example to_database_alone_imports :
  main (fun _ => Some [["CM1A"; "X1"; ""; "01/12/2026"]])
    (mkargs (Some "deadlines.tsv") None None true false)
  = (import_to_database "deadlines.tsv" [["CM1A"; "X1"; ""; "01/12/2026"]]
       "deadlines.db", Return).
Proof. reflexivity. Qed.

Lemma existsb_month (month : string) :
  existsb (String.eqb month) valid_months = true <-> In month valid_months.
Proof.
  rewrite existsb_exists. split.
  - intros (m & Hin & E). apply String.eqb_eq in E. now subst.
  - intros H. exists month. split; [exact H | apply String.eqb_refl].
Qed.

(** C9, as the code has it.  When the tool generates static files (an
    existing input path, neither [--to-database] nor [--start-server]):
    a year that is given, not zero and outside 1900..3000, or a month
    that is given, not blank and not one of the twelve English month
    names, makes it print one error line and exit with status 1, and no
    file is written; with the year within 1900..3000 and one of the
    twelve months, each given or left to its default 2026 and September,
    it generates the files. *)
Theorem year_month_validation
    (fs : string -> option (list (list string))) (args : arguments)
    (path : string) (rows : list (list string)) :
  input_path args = Some path -> path <> "" -> fs path = Some rows ->
  to_database args = false -> arg_start_server args = false ->
  (forall y, arg_year args = Some y -> y <> 0 -> y < 1900 \/ 3000 < y ->
     main fs args
     = ([Print "Error: Year must be between 1900 and 3000"], SysExit 1))
  /\ (forall m, arg_month args = Some m -> m <> "" -> ~ In m valid_months ->
        exists message, main fs args = ([Print message], SysExit 1))
  /\ (forall y m,
        arg_year args = Some y \/ (arg_year args = None /\ y = 2026) ->
        1900 <= y <= 3000 ->
        arg_month args = Some m \/ (arg_month args = None /\ m = "September") ->
        In m valid_months ->
        main fs args = (generate_static_files rows y m, Return)).
Proof.
  intros Hp Hne Hfs Hdb Hsrv.
  assert (T : truthy (Some path) = true) by now apply truthy_some.
  assert (M : main fs args =
    let year := match arg_year args with
                | Some y => if y =? 0 then 2026 else y
                | None => 2026
                end in
    let month := if truthy (arg_month args)
                 then match arg_month args with
                      | Some m => m
                      | None => "September"
                      end
                 else "September" in
    if (year <? 1900) || (year >? 3000)
    then ([Print "Error: Year must be between 1900 and 3000"], SysExit 1)
    else if negb (existsb (String.eqb month) valid_months)
         then ([Print ("Error: Month must be one of: "
                         ++ String.concat ", " valid_months)], SysExit 1)
         else (generate_static_files rows year month, Return)).
  { unfold main. now rewrite Hsrv, Hp, T, Hfs, Hdb. }
  rewrite M. clear M. cbv zeta. split; [|split].
  - intros y Hy H0 Hr. rewrite Hy.
    apply Z.eqb_neq in H0. rewrite H0.
    replace ((y <? 1900) || (y >? 3000)) with true; [reflexivity|].
    symmetry. apply orb_true_iff. rewrite Z.ltb_lt, Z.gtb_ltb, Z.ltb_lt. lia.
  - intros m Hm H0 Hin. rewrite Hm.
    apply truthy_some in H0. rewrite H0.
    match goal with
    | |- context [if ?c then _ else _] => destruct c
    end; [eauto|].
    replace (existsb (String.eqb m) valid_months) with false; [simpl; eauto|].
    symmetry. apply not_true_is_false. now rewrite existsb_month.
  - intros y m Hy Hr Hm Hin.
    assert (Ey : match arg_year args with
                 | Some y => if y =? 0 then 2026 else y
                 | None => 2026
                 end = y).
    { destruct Hy as [-> | [-> ->]]; [|reflexivity].
      destruct (Z.eqb_spec y 0); [lia | reflexivity]. }
    assert (Em : (if truthy (arg_month args)
                  then match arg_month args with
                       | Some m => m
                       | None => "September"
                       end
                  else "September") = m).
    { destruct Hm as [-> | [-> ->]]; [|reflexivity].
      assert (N : m <> "").
      { intros ->. simpl in Hin. repeat (destruct Hin as [Hin|Hin];
                                         [discriminate|]). contradiction. }
      apply truthy_some in N. now rewrite N. }
    rewrite Ey, Em.
    replace ((y <? 1900) || (y >? 3000)) with false.
    + apply existsb_month in Hin. now rewrite Hin.
    + symmetry. apply orb_false_iff.
      rewrite Z.ltb_ge, Z.gtb_ltb, Z.ltb_ge. lia.
Qed.

Lemma year_month_validation_witness :
  main (fun _ => Some [["CM1A"; "X1"; ""; "01/12/2026"]])
    (mkargs (Some "deadlines.tsv") (Some 1899) None false false)
  = ([Print "Error: Year must be between 1900 and 3000"], SysExit 1)
  /\ main (fun _ => Some [["CM1A"; "X1"; ""; "01/12/2026"]])
       (mkargs (Some "deadlines.tsv") (Some 2026) (Some "September")
          false false)
     = (generate_static_files [["CM1A"; "X1"; ""; "01/12/2026"]] 2026
          "September", Return).
Proof.
  assert (N : "deadlines.tsv" <> "") by discriminate.
  split.
  - refine (proj1 (year_month_validation
                     (fun _ => Some [["CM1A"; "X1"; ""; "01/12/2026"]])
                     (mkargs (Some "deadlines.tsv") (Some 1899) None false
                        false)
                     "deadlines.tsv" [["CM1A"; "X1"; ""; "01/12/2026"]]
                     eq_refl N eq_refl eq_refl eq_refl)
              1899 eq_refl _ _); lia.
  - refine (proj2 (proj2 (year_month_validation
                     (fun _ => Some [["CM1A"; "X1"; ""; "01/12/2026"]])
                     (mkargs (Some "deadlines.tsv") (Some 2026)
                        (Some "September") false false)
                     "deadlines.tsv" [["CM1A"; "X1"; ""; "01/12/2026"]]
                     eq_refl N eq_refl eq_refl eq_refl))
              2026 "September" (or_introl eq_refl) _ (or_introl eq_refl) _).
    + lia.
    + simpl. auto 12.
Defined.

(** C9 as stated fails: with [--to-database] a year outside
    1900..3000 is not looked at, the file is imported and the tool
    returns with status zero. *)
Lemma year_not_checked_for_database_import :
  main (fun _ => Some [["CM1A"; "X1"; ""; "01/12/2026"]])
    (mkargs (Some "deadlines.tsv") (Some 1899) None true false)
  = ([ImportDb "deadlines.db" [["CM1A"; "X1"; ""; "01/12/2026"]];
      Print "Imported deadlines from deadlines.tsv";
      Print "Successfully imported deadlines.tsv to database deadlines.db";
      Print "You can now start the calendar server with: python calendar_server.py"],
     Return).
Proof. reflexivity. Qed.

Example year_zero_counts_as_not_given :
  main (fun _ => Some [["CM1A"; "X1"; ""; "01/12/2026"]])
    (mkargs (Some "deadlines.tsv") (Some 0) None false false)
  = (generate_static_files [["CM1A"; "X1"; ""; "01/12/2026"]] 2026
       "September", Return).
Proof. reflexivity. Qed.

(** ** Further properties *)

(** A row of fewer than four fields is skipped: the store and the
    generated files are what they are without it. *)
Theorem short_row_is_skipped
    (db : database) (before after : list (list string)) (row : list string)
    (year : Z) (month : string) :
  (List.length row < 4)%nat ->
  import_from_tsv db (before ++ row :: after)
  = import_from_tsv db (before ++ after)
  /\ generate_static_files (before ++ row :: after) year month
     = generate_static_files (before ++ after) year month.
Proof.
  intros H.
  assert (I : forall st, import_row st row = st).
  { intros st. destruct row as [|a [|b [|c [|d rest]]]]; try reflexivity.
    simpl in H. lia. }
  assert (A : forall keys cals, add_row keys cals row = cals).
  { intros keys cals. destruct row as [|a [|b [|c [|d rest]]]];
      try reflexivity. simpl in H. lia. }
  split.
  - unfold import_from_tsv. rewrite !fold_left_app. cbn [fold_left].
    now rewrite I.
  - unfold generate_static_files, fill_calendars.
    rewrite !fold_left_app. cbn [fold_left]. now rewrite A.
Qed.

Lemma short_row_is_skipped_witness :
  import_from_tsv init_database
    [["CM1A"; "X1"; "01/12/2026"]; ["CB1"; "X1"; ""; "01/12/2026"]]
  = import_from_tsv init_database [["CB1"; "X1"; ""; "01/12/2026"]].
Proof.
  refine (proj1 (short_row_is_skipped init_database []
                   [["CB1"; "X1"; ""; "01/12/2026"]]
                   ["CM1A"; "X1"; "01/12/2026"] 2026 "September" _)).
  simpl. lia.
Defined.

(** Every deadline ingestion stores is the ISO text of a date, and the
    feed reads that date back from it. *)
Theorem stored_deadline_is_read_back
    (db : database) (rows : list (list string)) (r : deadline) :
  In r (table (import_from_tsv db rows)) ->
  exists d,
    deadline_date r = isoformat d
    /\ strptime_ymd (deadline_date r) = Some d
    /\ is_iso_shape (deadline_date r) = true.
Proof.
  intros H. pose proof (import_from_tsv_imported db rows) as I.
  rewrite Forall_forall in I. destruct (I r H) as (_ & (d & V & E) & _).
  exists d. rewrite E. split; [reflexivity|].
  split; [now apply strptime_isoformat | apply isoformat_shape].
Qed.

Lemma stored_deadline_is_read_back_witness :
  exists d,
    "2024-02-29" = isoformat d
    /\ strptime_ymd "2024-02-29" = Some d
    /\ is_iso_shape "2024-02-29" = true.
Proof.
  refine (stored_deadline_is_read_back init_database
            [["SA1"; "X4"; ""; " 29/02/2024 "]]
            (mkdeadline 1 "SA1" "SA" "X4" (Some "SA1 X4") None "2024-02-29"
               "2026" true) _).
  simpl. auto.
Defined.

Example strptime_reads_two_digit_fields :
  strptime_dmy "01/12/2026" = Some (mkdate 2026 12 1).
Proof. reflexivity. Qed.

Example strptime_refuses_a_day_the_month_lacks :
  strptime_dmy "31/02/2026" = None /\ strptime_dmy "29/02/2025" = None
  /\ strptime_dmy "29/02/2024" = Some (mkdate 2024 2 29).
Proof. repeat split; reflexivity. Qed.

Example strptime_refuses_text_left_over :
  strptime_dmy "01/12/20261" = None /\ strptime_dmy "01/12/2026 x" = None
  /\ strptime_dmy "01-12-2026" = None /\ strptime_dmy "" = None.
Proof. repeat split; reflexivity. Qed.

Example feed_for_cm1_only :
  option_map
    (fun r => match content r with
              | ics_text cal => map name (events cal)
              | _ => []
              end)
    (do_GET
       (import_from_tsv init_database
          [["CM1A"; "X1"; ""; "01/12/2026"]; ["CS1B"; "X2"; ""; "02/12/2026"]])
       "/calendar/cm1.ics" [])
  = Some ["CM1A X1 deadline"].
Proof. reflexivity. Qed.

(** ** Ordering of query results *)

Lemma key_leb_total (k1 k2 : list string) :
  key_leb k1 k2 = false -> key_leb k2 k1 = true.
Proof.
  revert k2. induction k1 as [|a k1 IH]; intros [|b k2]; simpl;
    try (intros; discriminate); auto.
  rewrite (String.compare_antisym b a).
  destruct (String.compare a b); simpl; auto.
Qed.

Section SortedBy.
Context {A : Type} (key : A -> list string).

Lemma insert_sorted_hd (x y : A) (l : list A) :
  key_leb (key y) (key x) = true ->
  HdRel (fun a b => key_leb (key a) (key b) = true) y l ->
  HdRel (fun a b => key_leb (key a) (key b) = true) y (insert_sorted key x l).
Proof.
  intros Hyx H. destruct l as [|z l]; simpl.
  - now constructor.
  - destruct (key_leb (key x) (key z)); constructor; auto.
    now inversion H.
Qed.

Lemma insert_sorted_sorted (x : A) (l : list A) :
  Sorted (fun a b => key_leb (key a) (key b) = true) l ->
  Sorted (fun a b => key_leb (key a) (key b) = true) (insert_sorted key x l).
Proof.
  induction 1 as [|y l Hl IH Hy]; simpl.
  - repeat constructor.
  - destruct (key_leb (key x) (key y)) eqn:E.
    + constructor; [now constructor | now constructor].
    + constructor; [exact IH|].
      apply insert_sorted_hd; auto. now apply key_leb_total.
Qed.

Lemma order_by_sorted (l : list A) :
  Sorted (fun a b => key_leb (key a) (key b) = true) (order_by key l).
Proof.
  unfold order_by. induction l as [|x l IH]; simpl.
  - constructor.
  - now apply insert_sorted_sorted.
Qed.
End SortedBy.

Lemma distinct_in (l : list string) (x : string) :
  In x (distinct l) <-> In x l.
Proof.
  induction l as [|y l IH]; simpl; [tauto|].
  rewrite filter_In, IH, negb_true_iff, String.eqb_neq.
  destruct (string_dec y x); [subst|]; tauto.
Qed.

Lemma distinct_nodup (l : list string) : NoDup (distinct l).
Proof.
  induction l as [|y l IH]; simpl; constructor.
  - rewrite filter_In, negb_true_iff, String.eqb_neq. tauto.
  - now apply NoDup_filter.
Qed.

Lemma sorted_one_key (l : list string) :
  Sorted (fun a b => key_leb [a] [b] = true) l ->
  Sorted (fun a b => String.leb a b = true) l.
Proof.
  assert (E : forall a b, key_leb [a] [b] = String.leb a b).
  { intros a b. unfold String.leb. simpl. now destruct (String.compare a b). }
  induction 1 as [|y l Hl IH Hy]; constructor; [exact IH|].
  destruct Hy as [|z l' Hz]; constructor. now rewrite <- E.
Qed.

Lemma groups_listing_members (db : database) (g : string) :
  In g (get_module_groups db)
  <-> exists r, In r (table db) /\ is_active r = true /\ module_group r = g.
Proof.
  unfold get_module_groups.
  rewrite order_by_in, distinct_in, in_map_iff. split.
  - intros (r & E & Hr). apply filter_In in Hr. exists r. tauto.
  - intros (r & Hr & A & E). exists r. rewrite filter_In. tauto.
Qed.

(** [GET /api/groups] answers, on every store, with the groups that have
    an active record: each one once, in ascending order; on a store
    filled by ingestion they are among the ten group codes. *)
Theorem groups_listing (db : database) (query_params : query) :
  exists groups,
    do_GET db "/api/groups" query_params
    = Some (mkresponse 200 [("Content-Type", "application/json")]
              (json_text (JObj [("groups", JArr (map JStr groups))])))
    /\ groups = get_module_groups db
    /\ (forall g, In g groups
                  <-> exists r, In r (table db) /\ is_active r = true
                                /\ module_group r = g)
    /\ NoDup groups
    /\ Sorted (fun a b => String.leb a b = true) groups
    /\ (Forall imported (table db) -> incl groups module_groups).
Proof.
  exists (get_module_groups db). split; [reflexivity|]. split; [reflexivity|].
  split; [apply groups_listing_members|]. split; [|split].
  - unfold get_module_groups.
    eapply Permutation_NoDup;
      [apply Permutation_sym, order_by_perm | apply distinct_nodup].
  - apply sorted_one_key. unfold get_module_groups.
    apply (order_by_sorted (fun g : string => [g])).
  - intros I g Hg. apply groups_listing_members in Hg.
    destruct Hg as (r & Hr & _ & <-).
    rewrite Forall_forall in I. now destruct (I r Hr).
Qed.

Lemma groups_listing_witness :
  incl
    (get_module_groups
       (import_from_tsv init_database
          [["SP1"; "X1"; ""; "01/12/2026"]; ["CB1"; "X2"; ""; "02/12/2026"]]))
    module_groups.
Proof.
  destruct (groups_listing
              (import_from_tsv init_database
                 [["SP1"; "X1"; ""; "01/12/2026"];
                  ["CB1"; "X2"; ""; "02/12/2026"]]) [])
    as (groups & _ & -> & _ & _ & _ & H).
  apply H. apply import_from_tsv_imported.
Defined.

Example groups_are_listed_in_ascending_order :
  get_module_groups
    (import_from_tsv init_database
       [["SP1"; "X1"; ""; "01/12/2026"]; ["CB1"; "X2"; ""; "02/12/2026"];
        ["SP2"; "X3"; ""; "03/12/2026"]])
  = ["CB"; "SP"].
Proof. reflexivity. Qed.

(** ** ISO texts compare as their dates *)

Lemma compare_dec_digit (a b : Z) :
  Ascii.compare (dec_digit a) (dec_digit b) = (a mod 10 ?= b mod 10).
Proof.
  unfold Ascii.compare, dec_digit.
  pose proof (Z.mod_pos_bound a 10 ltac:(lia)).
  pose proof (Z.mod_pos_bound b 10 ltac:(lia)).
  rewrite !N_ascii_embedding by lia.
  rewrite Z2N.inj_compare by lia.
  apply Z.add_compare_mono_l.
Qed.

Lemma compare_pad2 (p q : Z) (s t : string) :
  0 <= p <= 99 -> 0 <= q <= 99 ->
  String.compare (pad2 p ++ s) (pad2 q ++ t)
  = match p ?= q with Eq => String.compare s t | c => c end.
Proof.
  intros Hp Hq. unfold pad2. cbn [append String.compare].
  rewrite !compare_dec_digit.
  destruct (Z.compare_spec ((p / 10) mod 10) ((q / 10) mod 10)) as [E1|E1|E1].
  - destruct (Z.compare_spec (p mod 10) (q mod 10)) as [E2|E2|E2].
    + replace (p ?= q) with Eq; [reflexivity|].
      symmetry. apply Z.compare_eq_iff. Z.div_mod_to_equations. lia.
    + replace (p ?= q) with Lt; [reflexivity|].
      symmetry. apply Z.compare_lt_iff. Z.div_mod_to_equations. lia.
    + replace (p ?= q) with Gt; [reflexivity|].
      symmetry. apply Z.compare_gt_iff. Z.div_mod_to_equations. lia.
  - replace (p ?= q) with Lt; [reflexivity|].
    symmetry. apply Z.compare_lt_iff. Z.div_mod_to_equations. lia.
  - replace (p ?= q) with Gt; [reflexivity|].
    symmetry. apply Z.compare_gt_iff. Z.div_mod_to_equations. lia.
Qed.

Lemma dec_digit_mod (a b : Z) : a mod 10 = b mod 10 -> dec_digit a = dec_digit b.
Proof. unfold dec_digit. now intros ->. Qed.

Lemma pad4_pad2 (p : Z) : pad4 p = pad2 (p / 100) ++ pad2 (p mod 100).
Proof.
  unfold pad4, pad2. cbn [append].
  repeat match goal with
         | |- String _ _ = String _ _ => f_equal
         end;
    apply dec_digit_mod; Z.div_mod_to_equations; lia.
Qed.

Lemma compare_pad4 (p q : Z) (s t : string) :
  0 <= p <= 9999 -> 0 <= q <= 9999 ->
  String.compare (pad4 p ++ s) (pad4 q ++ t)
  = match p ?= q with Eq => String.compare s t | c => c end.
Proof.
  intros Hp Hq.
  rewrite (pad4_pad2 p), (pad4_pad2 q).
  replace ((pad2 (p / 100) ++ pad2 (p mod 100)) ++ s)
    with (pad2 (p / 100) ++ (pad2 (p mod 100) ++ s)) by reflexivity.
  replace ((pad2 (q / 100) ++ pad2 (q mod 100)) ++ t)
    with (pad2 (q / 100) ++ (pad2 (q mod 100) ++ t)) by reflexivity.
  rewrite !compare_pad2 by (Z.div_mod_to_equations; lia).
  destruct (Z.compare_spec (p / 100) (q / 100)) as [E1|E1|E1].
  - destruct (Z.compare_spec (p mod 100) (q mod 100)) as [E2|E2|E2].
    + replace (p ?= q) with Eq; [reflexivity|].
      symmetry. apply Z.compare_eq_iff. Z.div_mod_to_equations. lia.
    + replace (p ?= q) with Lt; [reflexivity|].
      symmetry. apply Z.compare_lt_iff. Z.div_mod_to_equations. lia.
    + replace (p ?= q) with Gt; [reflexivity|].
      symmetry. apply Z.compare_gt_iff. Z.div_mod_to_equations. lia.
  - replace (p ?= q) with Lt; [reflexivity|].
    symmetry. apply Z.compare_lt_iff. Z.div_mod_to_equations. lia.
  - replace (p ?= q) with Gt; [reflexivity|].
    symmetry. apply Z.compare_gt_iff. Z.div_mod_to_equations. lia.
Qed.

Lemma append_empty (s : string) : s ++ "" = s.
Proof. induction s as [|c s IH]; simpl; [reflexivity | now rewrite IH]. Qed.

Lemma compare_isoformat (x y : date) :
  valid_date x -> valid_date y ->
  String.compare (isoformat x) (isoformat y) = date_compare x y.
Proof.
  intros Vx Vy.
  destruct (valid_date_bounds x Vx) as (X1 & X2 & X3).
  destruct (valid_date_bounds y Vy) as (Y1 & Y2 & Y3).
  unfold isoformat, date_compare.
  rewrite compare_pad4 by lia.
  destruct (year x ?= year y); try reflexivity.
  cbn [append String.compare].
  change (Ascii.compare "-" "-") with Eq. cbv iota.
  rewrite compare_pad2 by lia.
  destruct (month x ?= month y); try reflexivity.
  cbn [append String.compare].
  change (Ascii.compare "-" "-") with Eq. cbv iota.
  rewrite <- (append_empty (pad2 (day x))), <- (append_empty (pad2 (day y))).
  rewrite compare_pad2 by lia. cbn [String.compare].
  now destruct (day x ?= day y).
Qed.

Lemma date_compare_eq (x y : date) : date_compare x y = Eq -> x = y.
Proof.
  unfold date_compare. destruct x as [a b c], y as [a' b' c']; simpl.
  destruct (Z.compare_spec a a'); try discriminate.
  destruct (Z.compare_spec b b'); try discriminate.
  intros K. apply Z.compare_eq_iff in K. congruence.
Qed.

Lemma imported_read_back (r : deadline) (x : date) :
  imported r -> strptime_ymd (deadline_date r) = Some x ->
  valid_date x /\ deadline_date r = isoformat x.
Proof.
  intros (_ & (d & V & E) & _) H. rewrite E in H.
  rewrite (strptime_isoformat d V) in H. injection H as <-. auto.
Qed.

Lemma feed_key_order (a b : deadline) :
  imported a -> imported b ->
  key_leb [deadline_date a; module_code a] [deadline_date b; module_code b]
  = true ->
  in_feed_order a b.
Proof.
  intros Ia Ib K x y Hx Hy.
  destruct (imported_read_back a x Ia Hx) as [Vx Ex].
  destruct (imported_read_back b y Ib Hy) as [Vy Ey].
  cbn [key_leb] in K. rewrite Ex, Ey, (compare_isoformat x y Vx Vy) in K.
  destruct (date_compare x y) eqn:C; [right | now left | discriminate].
  split; [now apply date_compare_eq|].
  unfold String.leb. now destruct (String.compare (module_code a) (module_code b)).
Qed.

Lemma listing_key_order (a b : deadline) :
  imported a -> imported b ->
  key_leb [module_group a; deadline_date a; module_code a]
          [module_group b; deadline_date b; module_code b] = true ->
  in_listing_order a b.
Proof.
  intros Ia Ib K. unfold in_listing_order, String.ltb.
  cbn [key_leb] in K.
  destruct (String.compare (module_group a) (module_group b)) eqn:C;
    [right | now left | discriminate].
  split; [now apply String.compare_eq_iff|].
  now apply feed_key_order.
Qed.

Lemma sorted_among {A} (P : A -> Prop) (R S : A -> A -> Prop) (l : list A) :
  (forall a b, P a -> P b -> R a b -> S a b) ->
  Forall P l -> Sorted R l -> Sorted S l.
Proof.
  intros H F. induction 1 as [|y l Hl IH Hy]; constructor.
  - apply IH. now inversion F.
  - inversion F as [|? ? Py Pl]; subst.
    destruct Hy as [|z l' Hz]; constructor.
    apply H; auto. now inversion Pl.
Qed.

(** On a store filled by ingestion, the query of one group returns the
    active records of that group ordered by deadline and, within a day,
    by module code; the query of every group returns all the records
    ordered by group first.  The ISO texts are compared as text, which
    agrees with the order of the dates. *)
Theorem deadlines_in_date_order
    (db0 : database) (rows : list (list string)) (g : string) :
  (g <> "" ->
   exists records,
     get_deadlines_by_group (import_from_tsv db0 rows) (Some g)
     = map select_columns records
     /\ Permutation records
          (filter (fun r => String.eqb (module_group r) (upper g)
                            && is_active r)
             (table (import_from_tsv db0 rows)))
     /\ Sorted in_feed_order records)
  /\ exists records,
       get_deadlines_by_group (import_from_tsv db0 rows) None
       = map select_columns records
       /\ Permutation records (table (import_from_tsv db0 rows))
       /\ Sorted in_listing_order records.
Proof.
  set (db := import_from_tsv db0 rows).
  pose proof (import_from_tsv_imported db0 rows) as I. fold db in I.
  split.
  - intros Hg. exists (group_records db (upper g)).
    split; [now apply get_deadlines_group|].
    split; [apply order_by_perm|].
    apply (sorted_among imported
             (fun a b => key_leb [deadline_date a; module_code a]
                                 [deadline_date b; module_code b] = true)).
    + apply feed_key_order.
    + apply (imported_sublist db); auto.
      intros r Hr. now apply group_records_in in Hr.
    + apply (order_by_sorted (fun r => [deadline_date r; module_code r])).
  - exists (all_records db). split; [reflexivity|]. split.
    + unfold all_records. rewrite order_by_perm.
      rewrite forallb_filter_id; [reflexivity|].
      apply forallb_forall. intros r Hr. rewrite Forall_forall in I.
      now destruct (I r Hr) as (_ & _ & _ & _ & _ & A).
    + apply (sorted_among imported
               (fun a b =>
                  key_leb [module_group a; deadline_date a; module_code a]
                          [module_group b; deadline_date b; module_code b]
                  = true)).
      * apply listing_key_order.
      * apply (imported_sublist db); auto.
        intros r Hr. now apply all_records_in in Hr.
      * apply (order_by_sorted
                 (fun r => [module_group r; deadline_date r; module_code r])).
Qed.

Lemma deadlines_in_date_order_witness :
  exists records,
    get_deadlines_by_group
      (import_from_tsv init_database
         [["CM1B"; "X2"; ""; "10/01/2027"]; ["CM1A"; "X1"; ""; "01/12/2026"]])
      (Some "cm1")
    = map select_columns records
    /\ Permutation records
         (filter (fun r => String.eqb (module_group r) (upper "cm1")
                           && is_active r)
            (table
               (import_from_tsv init_database
                  [["CM1B"; "X2"; ""; "10/01/2027"];
                   ["CM1A"; "X1"; ""; "01/12/2026"]])))
    /\ Sorted in_feed_order records.
Proof.
  refine (proj1 (deadlines_in_date_order init_database
                   [["CM1B"; "X2"; ""; "10/01/2027"];
                    ["CM1A"; "X1"; ""; "01/12/2026"]] "cm1") _).
  discriminate.
Defined.

Example earlier_deadline_comes_first :
  map (fun row => let '(module_code, _, _, deadline_date, _) := row in
                  (module_code, deadline_date))
    (get_deadlines_by_group
       (import_from_tsv init_database
          [["CM1B"; "X2"; ""; "10/01/2027"]; ["CM1A"; "X1"; ""; "01/12/2026"]])
       (Some "CM1"))
  = [("CM1A", "2026-12-01"); ("CM1B", "2027-01-10")].
Proof. reflexivity. Qed.

(** ** The handler on an ingested store *)











Example index_page_raises_on_an_empty_store :
  do_GET init_database "/" [] = None
  /\ do_GET (import_from_tsv init_database [["XY9"; "X1"; ""; "01/12/2026"]])
       "/" [] = None
  /\ do_GET (import_from_tsv init_database [["CB1"; "X1"; ""; "01/12/2026"]])
       "/" []
     = Some (mkresponse 200 [("Content-Type", "text/html; charset=utf-8")]
               (index_page ["CB"])).
Proof. repeat split; reflexivity. Qed.

(** A store ingestion did not fill may hold a deadline that is no ISO
    date: [generate_calendar] raises on it. *)
Example feed_fails_on_a_date_ingestion_never_stores :
  do_GET (mkdb 1 [mkdeadline 1 "CM1A" "CM1" "X1" (Some "CM1A X1") None
                    "1 Dec 2026" "2026" true])
    "/calendar/cm1.ics" []
  = None.
Proof. reflexivity. Qed.

(** ** The links of the index page *)




(** ** Runs of the conversion tool *)

(** Once [parse_args] has returned the arguments, a run of [main] that
    ends in [sys.exit] ends with status 1, was not asked to start the
    server, and has done nothing but print one line: the usage text, the
    missing file, or (without --to-database) the year or the month
    error.  It has written no file and imported nothing. *)
Theorem failing_run_only_prints
    (fs : string -> option (list (list string))) (args : arguments)
    (effects : list effect) (n : Z) :
  main fs args = (effects, SysExit n) ->
  n = 1
  /\ arg_start_server args = false
  /\ (effects = [Print usage]
      \/ (exists path, input_path args = Some path /\ fs path = None
                       /\ effects = [Print ("Error: File " ++ path
                                              ++ " not found")])
      \/ (to_database args = false
          /\ (effects = [Print "Error: Year must be between 1900 and 3000"]
              \/ effects = [Print ("Error: Month must be one of: "
                                     ++ String.concat ", " valid_months)]))).
Proof.
  unfold main. destruct (arg_start_server args); [discriminate|].
  destruct (input_path args) as [path|];
    [|intros [= <- <-]; auto].
  destruct (negb (truthy (Some path))); [intros [= <- <-]; auto|].
  destruct (fs path) as [rows|] eqn:F;
    [|intros [= <- <-]; repeat split; right; left; eauto].
  destruct (to_database args); [discriminate|]. cbv zeta.
  match goal with
  | |- context [orb ?a ?b] => destruct (orb a b)
  end.
  { intros [= <- <-]. repeat split. right. right. split; auto. }
  match goal with
  | |- context [negb ?a] => destruct (negb a)
  end; [|discriminate].
  intros [= <- <-]. repeat split. right. right. split; auto.
Qed.

Lemma failing_run_only_prints_witness :
  main (fun _ => None) (mkargs (Some "nowhere.tsv") None None false false)
  = ([Print "Error: File nowhere.tsv not found"], SysExit 1)
  /\ 1 = 1
  /\ arg_start_server (mkargs (Some "nowhere.tsv") None None false false)
     = false
  /\ ([Print "Error: File nowhere.tsv not found"] = [Print usage]
      \/ (exists path,
            input_path (mkargs (Some "nowhere.tsv") None None false false)
            = Some path
            /\ (fun _ : string => @None (list (list string))) path = None
            /\ [Print "Error: File nowhere.tsv not found"]
               = [Print ("Error: File " ++ path ++ " not found")])
      \/ (to_database (mkargs (Some "nowhere.tsv") None None false false)
          = false
          /\ ([Print "Error: File nowhere.tsv not found"]
              = [Print "Error: Year must be between 1900 and 3000"]
              \/ [Print "Error: File nowhere.tsv not found"]
                 = [Print ("Error: Month must be one of: "
                             ++ String.concat ", " valid_months)]))).
Proof.
  split; [reflexivity|].
  apply (failing_run_only_prints (fun _ => None)
           (mkargs (Some "nowhere.tsv") None None false false)
           [Print "Error: File nowhere.tsv not found"] 1).
  reflexivity.
Defined.

(** Whenever a run of the conversion tool writes a file, the run returns
    normally, neither --to-database nor --start-server was given, the
    file is the one of a module group for a year in [1900, 3000] and one
    of the twelve month names, and its calendar holds an event. *)
Theorem files_only_for_valid_year_and_month
    (fs : string -> option (list (list string))) (args : arguments)
    (file_name : string) (cal : Calendar) :
  In (WriteFile file_name cal) (fst (main fs args)) ->
  snd (main fs args) = Return
  /\ to_database args = false /\ arg_start_server args = false
  /\ exists g year month,
       In g module_groups /\ 1900 <= year <= 3000 /\ In month valid_months
       /\ file_name = static_file_name g month year
       /\ events cal <> [].
Proof.
  unfold main. destruct (arg_start_server args).
  { simpl. intros [H|[]]. discriminate. }
  destruct (input_path args) as [path|]; [|simpl; intros [H|[]]; discriminate].
  destruct (negb (truthy (Some path))); [simpl; intros [H|[]]; discriminate|].
  destruct (fs path) as [rows|]; [|simpl; intros [H|[]]; discriminate].
  destruct (to_database args).
  { simpl. intros [H|[H|[H|[H|[]]]]]; discriminate. }
  cbv zeta.
  set (year := match arg_year args with
               | Some y => if y =? 0 then 2026 else y
               | None => 2026
               end).
  set (month := if truthy (arg_month args)
                then match arg_month args with
                     | Some m => m
                     | None => "September"
                     end
                else "September").
  destruct ((year <? 1900) || (year >? 3000)) eqn:Y;
    [simpl; intros [H|[]]; discriminate|].
  destruct (existsb (String.eqb month) valid_months) eqn:M;
    [|simpl; intros [H|[]]; discriminate].
  cbn [negb fst snd]. unfold generate_static_files.
  rewrite fill_calendars_events, write_calendars_cals. intros H.
  apply in_flat_map in H. destruct H as (g & Hg & H).
  apply group_output_write in H. destruct H as (Hev & -> & ->).
  repeat split; auto. exists g, year, month.
  apply orb_false_iff in Y. destruct Y as [Y1 Y2].
  apply Z.ltb_ge in Y1. rewrite Z.gtb_ltb in Y2. apply Z.ltb_ge in Y2.
  apply existsb_month in M. repeat split; auto.
Qed.

Lemma files_only_for_valid_year_and_month_witness :
  snd (main (fun _ => Some [["CB1"; "X1"; ""; "01/12/2026"]])
         (mkargs (Some "deadlines.tsv") (Some 2027) (Some "May") false false))
  = Return
  /\ exists g year month,
    In g module_groups /\ 1900 <= year <= 3000 /\ In month valid_months
    /\ "CB Assignment Deadlines May 2027.ics" = static_file_name g month year
    /\ events (static_calendar "May" 2027 "CB"
                 (static_events [["CB1"; "X1"; ""; "01/12/2026"]] "CB")) <> [].
Proof.
  destruct (files_only_for_valid_year_and_month
              (fun _ => Some [["CB1"; "X1"; ""; "01/12/2026"]])
              (mkargs (Some "deadlines.tsv") (Some 2027) (Some "May") false
                 false)
              "CB Assignment Deadlines May 2027.ics"
              (static_calendar "May" 2027 "CB"
                 (static_events [["CB1"; "X1"; ""; "01/12/2026"]] "CB")))
    as (R & _ & _ & H).
  - vm_compute. auto.
  - split; [exact R | exact H].
Defined.

(** ** The rows behind the records *)

Lemma import_row_from (st : database) (row : list string) (r : deadline) :
  In r (table (import_row st row)) ->
  In r (table st) \/ row_values row = Some (columns r).
Proof.
  rewrite import_row_values.
  destruct (row_values row) as [[[[[[[[mc mg] ac] t] rd] d] ay] act]|] eqn:E;
    [|auto].
  destruct (row_values_defaults _ _ _ _ _ _ _ _ _ E) as [-> ->].
  unfold insert_or_replace. cbn [table]. intros H.
  apply in_app_or in H. destruct H as [H|[<-|[]]].
  - left. now apply filter_In in H.
  - right. reflexivity.
Qed.

Lemma fold_import_from (rows : list (list string)) (st : database)
    (r : deadline) :
  In r (table (fold_left import_row rows st)) ->
  In r (table st)
  \/ exists row, In row rows /\ row_values row = Some (columns r).
Proof.
  revert st. induction rows as [|row rows IH]; intros st; cbn [fold_left].
  - auto.
  - intros H. destruct (IH _ H) as [H1|(row' & Hin & E)].
    + destruct (import_row_from st row r H1) as [H2|H2]; [auto|].
      right. exists row. split; [now left | exact H2].
    + right. exists row'. split; [now right | exact E].
Qed.

Lemma import_row_key_stays (st : database) (row : list string)
    (k : string * string * string) :
  (exists r, In r (table st) /\ natural_key r = k) ->
  exists r, In r (table (import_row st row)) /\ natural_key r = k.
Proof.
  intros (r & Hr & K).
  destruct (row_values row) as [v|] eqn:E.
  - destruct (import_row_stores st row v E) as (x & Hx & Cx).
    assert (D : {key_of v = k} + {key_of v <> k}).
    { repeat decide equality. }
    destruct D as [D|D].
    + exists x. split; [exact Hx|]. now rewrite <- key_of_columns, Cx.
    + exists r. split; [|exact K]. apply import_row_keeps; auto.
      intros v' E'. rewrite E in E'. injection E' as <-. now rewrite K.
  - exists r. split; [|exact K]. rewrite import_row_values, E. exact Hr.
Qed.

Lemma fold_import_key_stays (rows : list (list string)) (st : database)
    (k : string * string * string) :
  (exists r, In r (table st) /\ natural_key r = k) ->
  exists r, In r (table (fold_left import_row rows st)) /\ natural_key r = k.
Proof.
  revert st. induction rows as [|row rows IH]; intros st H; cbn [fold_left].
  - exact H.
  - apply IH. now apply import_row_key_stays.
Qed.

Lemma import_row_length (st : database) (row : list string) :
  (List.length (table (import_row st row)) <= S (List.length (table st)))%nat.
Proof.
  rewrite import_row_values.
  destruct (row_values row) as [[[[[[[[mc mg] ac] t] rd] d] ay] act]|];
    [|lia].
  unfold insert_or_replace. cbn [table]. rewrite length_app. cbn [List.length].
  pose proof (filter_length_le
                (fun r => negb (same_key r
                   (mkdeadline (Z.max (seq st) (max_id (table st)) + 1) mc mg
                      ac t rd d "2026" true))) (table st)).
  lia.
Qed.

Lemma fold_import_length (rows : list (list string)) (st : database) :
  (List.length (table (fold_left import_row rows st))
   <= List.length (table st) + List.length rows)%nat.
Proof.
  revert st. induction rows as [|row rows IH]; intros st; cbn [fold_left].
  - simpl. lia.
  - specialize (IH (import_row st row)).
    pose proof (import_row_length st row). simpl. lia.
Qed.

Lemma stored_from_row (db : database) (rows : list (list string))
    (r : deadline) :
  In r (table (import_from_tsv db rows)) ->
  exists row, In row rows /\ row_values row = Some (columns r).
Proof.
  intros H. apply fold_import_from in H. destruct H as [[]|H]. exact H.
Qed.

(** After an ingestion the store holds the file and nothing else: every
    record carries the values of some row of the file, every row that
    passes the checks has its natural key in the store, and there are no
    more records than rows.  What the store held before is gone. *)
Theorem store_holds_the_accepted_rows
    (db : database) (rows : list (list string)) :
  (forall r, In r (table (import_from_tsv db rows)) ->
     exists row, In row rows /\ row_values row = Some (columns r))
  /\ (forall row v, In row rows -> row_values row = Some v ->
        exists r, In r (table (import_from_tsv db rows))
                  /\ natural_key r = key_of v)
  /\ (List.length (table (import_from_tsv db rows)) <= List.length rows)%nat.
Proof.
  split; [apply stored_from_row|]. split.
  - intros row v Hin E. apply in_split in Hin.
    destruct Hin as (before & after & ->).
    unfold import_from_tsv. rewrite fold_left_app. cbn [fold_left].
    apply fold_import_key_stays.
    destruct (import_row_stores
                (fold_left import_row before (delete_all db)) row v E)
      as (x & Hx & Cx).
    exists x. split; [exact Hx|]. now rewrite <- key_of_columns, Cx.
  - pose proof (fold_import_length rows (delete_all db)) as L.
    exact L.
Qed.

(** ** The keys SQLite hands out *)

Lemma max_id_bound (l : list deadline) (r : deadline) :
  In r l -> id r <= max_id l.
Proof.
  induction l as [|x l IH]; simpl; [tauto|].
  intros [->|H]; [lia|]. specialize (IH H). lia.
Qed.

Lemma max_id_le (l : list deadline) (hi : Z) :
  0 <= hi -> (forall r, In r l -> id r <= hi) -> max_id l <= hi.
Proof.
  intros H0. induction l as [|x l IH]; simpl; intros H; [lia|].
  assert (id x <= hi) by (apply H; now left).
  assert (max_id l <= hi) by (apply IH; intros r Hr; apply H; now right).
  lia.
Qed.

Lemma ids_filter_sorted (p : deadline -> bool) (l : list deadline) :
  StronglySorted Z.lt (map id l) ->
  StronglySorted Z.lt (map id (filter p l)).
Proof.
  induction l as [|x l IH]; cbn [filter map]; [auto|].
  intros H. inversion H as [|? ? Hl Hx]; subst.
  destruct (p x); cbn [map]; [|auto].
  constructor; [auto|].
  rewrite Forall_forall in *. intros n Hn. apply Hx.
  rewrite in_map_iff in *. destruct Hn as (y & E & Hy).
  apply filter_In in Hy. exists y. tauto.
Qed.

Lemma ids_snoc_sorted (l : list Z) (n : Z) :
  StronglySorted Z.lt l -> (forall m, In m l -> m < n) ->
  StronglySorted Z.lt (l ++ [n]).
Proof.
  induction 1 as [|x l Hl IH Hx]; intros H; simpl.
  - repeat constructor.
  - constructor.
    + apply IH. intros m Hm. apply H. now right.
    + apply Forall_app. split; [exact Hx|].
      constructor; [|constructor]. apply H. now left.
Qed.

Lemma insert_keys_in_order (lo : Z) (st : database) (mc mg ac : string)
    (t rd : option string) (d : string) :
  keys_in_order lo st ->
  keys_in_order lo (insert_or_replace st mc mg ac t rd d)
  /\ (0 <= seq st -> seq (insert_or_replace st mc mg ac t rd d) = seq st + 1).
Proof.
  intros (S & B & L). unfold insert_or_replace. cbn [table seq].
  set (n := Z.max (seq st) (max_id (table st)) + 1).
  assert (Old : forall r, In r (table st) -> id r < n).
  { intros r Hr. pose proof (max_id_bound _ _ Hr). unfold n. lia. }
  unfold keys_in_order. cbn [table seq].
  split; [split; [|split]|].
  - rewrite map_app. apply ids_snoc_sorted; [now apply ids_filter_sorted|].
    intros m Hm. apply in_map_iff in Hm. destruct Hm as (y & <- & Hy).
    apply filter_In in Hy. apply Old. tauto.
  - intros r Hr. apply in_app_or in Hr. destruct Hr as [Hr|[<-|[]]].
    + apply filter_In in Hr. destruct Hr as [Hr _].
      specialize (B r Hr). specialize (Old r Hr). lia.
    + cbn [id]. unfold n. lia.
  - unfold n. lia.
  - intros H0. unfold n.
    assert (max_id (table st) <= seq st).
    { apply max_id_le; auto. intros r Hr. now apply B. }
    lia.
Qed.

Lemma fold_keys_in_order (lo : Z) (rows : list (list string)) (st : database) :
  keys_in_order lo st ->
  keys_in_order lo (fold_left import_row rows st)
  /\ (0 <= seq st ->
      seq (fold_left import_row rows st)
      = seq st + Z.of_nat (List.length (filter accepted rows))).
Proof.
  revert st. induction rows as [|row rows IH]; intros st K; cbn [fold_left].
  - split; [exact K | simpl; lia].
  - cbn [filter]. rewrite import_row_values.
    destruct (accepted row) eqn:A; unfold accepted in A;
      destruct (row_values row) as [[[[[[[[mc mg] ac] t] rd] d] ay] act]|];
      try discriminate.
    + destruct (insert_keys_in_order lo st mc mg ac t rd d K) as [K' S'].
      destruct (IH _ K') as [K'' S'']. split; [exact K''|].
      intros H0. cbn [List.length].
      rewrite S'' by (rewrite S' by assumption; lia).
      rewrite S' by assumption. lia.
    + now apply IH.
Qed.

(** The ids of an ingestion: the records are stored in ascending id
    order, every id lies above the counter before the ingestion (no id
    of an earlier ingestion comes back) and at most at the counter
    after, and the counter advances by one for every row that passes
    the checks, replaced rows included. *)
Theorem ingested_ids_are_fresh_and_increasing
    (db : database) (rows : list (list string)) :
  StronglySorted Z.lt (map id (table (import_from_tsv db rows)))
  /\ (forall r, In r (table (import_from_tsv db rows)) ->
        seq db < id r <= seq (import_from_tsv db rows))
  /\ (0 <= seq db ->
      seq (import_from_tsv db rows)
      = seq db + Z.of_nat (List.length (filter accepted rows))).
Proof.
  assert (K : keys_in_order (seq db) (delete_all db)).
  { unfold keys_in_order, delete_all. cbn [table seq map].
    split; [constructor|]. split; [intros r []|lia]. }
  destruct (fold_keys_in_order (seq db) rows (delete_all db) K)
    as ((S & B & _) & C).
  split; [exact S|]. split; [exact B|]. exact C.
Qed.

Lemma ingested_ids_are_fresh_and_increasing_witness :
  seq (import_from_tsv
         (import_from_tsv init_database [["CM1A"; "X1"; ""; "01/12/2026"]])
         [["CM1A"; "X1"; ""; "01/12/2026"]; ["CM1A"; "X1"; ""; "02/12/2026"];
          ["CM1A"; "X1"; ""; "soon"]])
  = seq (import_from_tsv init_database [["CM1A"; "X1"; ""; "01/12/2026"]])
    + Z.of_nat
        (List.length
           (filter accepted
              [["CM1A"; "X1"; ""; "01/12/2026"];
               ["CM1A"; "X1"; ""; "02/12/2026"];
               ["CM1A"; "X1"; ""; "soon"]])).
Proof.
  refine (proj2 (proj2 (ingested_ids_are_fresh_and_increasing
            (import_from_tsv init_database [["CM1A"; "X1"; ""; "01/12/2026"]])
            [["CM1A"; "X1"; ""; "01/12/2026"];
             ["CM1A"; "X1"; ""; "02/12/2026"];
             ["CM1A"; "X1"; ""; "soon"]])) _).
  vm_compute. discriminate.
Defined.

Example replaced_rows_use_up_ids :
  map id
    (table
       (import_from_tsv
          (import_from_tsv init_database [["CM1A"; "X1"; ""; "01/12/2026"]])
          [["CM1A"; "X1"; ""; "01/12/2026"]; ["CM1A"; "X1"; ""; "02/12/2026"];
           ["CM1A"; "X1"; ""; "soon"]]))
  = [3].
Proof. reflexivity. Qed.

(** ** Trimmed codes *)

Lemma lstrip_head (s : string) :
  lstrip s = "" \/ exists c r, lstrip s = String c r /\ is_space c = false.
Proof.
  induction s as [|c s IH]; simpl; [now left|].
  destruct (is_space c) eqn:E; [exact IH|]. right. eauto.
Qed.

Lemma lstrip_idem (s : string) : lstrip (lstrip s) = lstrip s.
Proof.
  destruct (lstrip_head s) as [->|(c & r & -> & E)]; [reflexivity|].
  simpl. now rewrite E.
Qed.

Lemma rstrip_idem (s : string) : rstrip (rstrip s) = rstrip s.
Proof.
  induction s as [|c s IH]; [reflexivity|]. cbn [rstrip].
  destruct (rstrip s) as [|c' s'] eqn:E.
  - destruct (is_space c) eqn:Sp; [reflexivity|].
    cbn [rstrip]. now rewrite Sp.
  - cbn [rstrip]. cbn [rstrip] in IH.
    destruct (rstrip s') as [|c'' s''] eqn:E'.
    + destruct (is_space c'); [discriminate|]. now rewrite IH.
    + now rewrite IH.
Qed.

Lemma lstrip_rstrip (s : string) :
  lstrip (rstrip (lstrip s)) = rstrip (lstrip s).
Proof.
  destruct (lstrip_head s) as [->|(c & r & -> & E)]; [reflexivity|].
  cbn [rstrip]. destruct (rstrip r).
  - rewrite E. simpl. now rewrite E.
  - simpl. now rewrite E.
Qed.

Lemma strip_idem (s : string) : strip (strip s) = strip s.
Proof. unfold strip. now rewrite lstrip_rstrip, rstrip_idem. Qed.

Lemma row_values_columns (row : list string) (r : deadline) :
  row_values row = Some (columns r) ->
  exists module code rec dl rest,
    row = module :: code :: rec :: dl :: rest
    /\ find_group module_groups module = Some (module_group r)
    /\ module_code r = strip module
    /\ assignment_code r = strip code
    /\ (exists d, parse_date dl = Some d /\ deadline_date r = isoformat d).
Proof.
  unfold row_values.
  destruct row as [|m [|c [|rr [|dd rest]]]]; try discriminate.
  destruct (find_group module_groups m) as [g|] eqn:G; try discriminate.
  destruct (parse_dates rr dd) as [[x y]|] eqn:P; try discriminate.
  unfold columns. intros [= E1 E2 E3 _ _ E6 _ _].
  exists m, c, rr, dd, rest. subst g.
  destruct (parse_dates_deadline _ _ _ _ P) as (Hx & _).
  repeat split; auto. exists x. auto.
Qed.

(** Every record ingestion stores has its module and assignment codes
    trimmed of surrounding blanks, its group is the classification of
    its own module code (the code, in upper case, starts with the
    group), and its title is the two codes joined by a blank. *)
Theorem stored_record_is_consistent
    (db : database) (rows : list (list string)) (r : deadline) :
  In r (table (import_from_tsv db rows)) ->
  strip (module_code r) = module_code r
  /\ strip (assignment_code r) = assignment_code r
  /\ find_group module_groups (module_code r) = Some (module_group r)
  /\ startswith (upper (module_code r)) (module_group r) = true
  /\ title r = Some (module_code r ++ " " ++ assignment_code r).
Proof.
  intros H.
  pose proof (import_from_tsv_imported db rows) as I.
  rewrite Forall_forall in I. destruct (I r H) as (_ & _ & _ & T & _).
  destruct (stored_from_row db rows r H) as (row & _ & E).
  destruct (row_values_columns row r E)
    as (m & c & rr & dd & rest & _ & G & Hm & Hc & _).
  assert (G' : find_group module_groups (module_code r) = Some (module_group r)).
  { rewrite Hm. rewrite <- G. clear.
    induction module_groups as [|k l IH]; simpl; [reflexivity|].
    now rewrite strip_idem, IH. }
  rewrite Hm at 1 2. rewrite Hc at 1 2. rewrite !strip_idem.
  repeat split; auto.
  destruct (find_group_in _ _ _ G') as [_ S]. rewrite <- S.
  now rewrite Hm, strip_idem.
Qed.

Lemma stored_record_is_consistent_witness :
  strip "cm1a" = "cm1a"
  /\ strip "X 1" = "X 1"
  /\ find_group module_groups "cm1a" = Some "CM1"
  /\ startswith (upper "cm1a") "CM1" = true
  /\ Some "cm1a X 1" = Some ("cm1a" ++ " " ++ "X 1").
Proof.
  refine (stored_record_is_consistent init_database
            [["  cm1a "; " X 1 "; ""; "01/12/2026"]]
            (mkdeadline 1 "cm1a" "CM1" "X 1" (Some "cm1a X 1") None
               "2026-12-01" "2026" true) _).
  simpl. auto.
Defined.

(** ** The two readers of the file *)

(** The two readers of one file agree in one direction: every group for
    which ingestion stores a record is a group for which the static
    generator, run on the same rows, writes a file, whatever the year
    and month.  The converse fails, the generator never looking at the
    recommended date. *)
Theorem stored_group_has_a_static_file
    (db : database) (rows : list (list string)) (year : Z) (month g : string) :
  In g (get_module_groups (import_from_tsv db rows)) ->
  In (WriteFile (static_file_name g month year)
        (static_calendar month year g (static_events rows g)))
     (generate_static_files rows year month)
  /\ static_events rows g <> [].
Proof.
  intros H. apply groups_listing_members in H.
  destruct H as (r & Hr & _ & <-).
  destruct (stored_from_row db rows r Hr) as (row & Hin & E).
  destruct (row_values_columns row r E)
    as (m & c & rr & dd & rest & -> & G & _ & _ & (d & P & _)).
  assert (N : static_events rows (module_group r) <> []).
  { apply static_events_some. exists m, c, rr, dd, rest, d. auto. }
  split; [|exact N].
  unfold generate_static_files.
  rewrite fill_calendars_events, write_calendars_cals.
  apply in_flat_map. exists (module_group r). split.
  - now destruct (find_group_in _ _ _ G).
  - apply group_output_write. auto.
Qed.

Lemma stored_group_has_a_static_file_witness :
  In (WriteFile (static_file_name "CB" "May" 2027)
        (static_calendar "May" 2027 "CB"
           (static_events [["CB1"; "X1"; ""; "01/12/2026"]] "CB")))
     (generate_static_files [["CB1"; "X1"; ""; "01/12/2026"]] 2027 "May")
  /\ static_events [["CB1"; "X1"; ""; "01/12/2026"]] "CB" <> [].
Proof.
  refine (stored_group_has_a_static_file init_database
            [["CB1"; "X1"; ""; "01/12/2026"]] 2027 "May" "CB" _).
  vm_compute. auto.
Defined.

Example static_file_without_a_stored_record :
  table (import_from_tsv init_database [["SP1"; "X1"; "soon"; "01/12/2026"]])
  = []
  /\ map (fun e => match e with
                   | WriteFile file_name _ => file_name
                   | _ => ""
                   end)
       (generate_static_files [["SP1"; "X1"; "soon"; "01/12/2026"]] 2026
          "September")
     = ["SP Assignment Deadlines September 2026.ics"; ""].
Proof. split; reflexivity. Qed.

(** ** Dates written day/month/year *)

Lemma re_match_step (d : directive) (f : list directive) (s : string) :
  re_match (d :: f) s
  = first_some
      (fun '(v, r) =>
         match re_match f r with
         | Some (vs, rest) =>
             Some (match d with dir_lit _ => vs | _ => v :: vs end, rest)
         | None => None
         end)
      (branches d s).
Proof. reflexivity. Qed.

Lemma read_year (y : Z) :
  0 <= y <= 9999 -> re_match [dir_Y] (pad4 y) = Some ([y], "").
Proof.
  intros H. rewrite re_match_step. unfold pad4.
  erewrite branches_year by apply digit_value_dec_digit.
  cbn [first_some re_match]. now rewrite four_digits.
Qed.

Lemma read_slash (f : list directive) (s : string) (vs : list Z)
    (rest : string) :
  re_match f s = Some (vs, rest) ->
  re_match (dir_lit "/" :: f) (String "/" s) = Some (vs, rest).
Proof.
  intros H. rewrite re_match_step.
  change (branches (dir_lit "/") (String "/" s)) with [(0, s)].
  cbn [first_some]. now rewrite H.
Qed.

Ltac read_two_digits H :=
  rewrite re_match_step;
  match goal with
  | |- context [branches ?d (pad2 ?k ++ ?t)] =>
      let u := eval cbv in (pad2 k ++ t) in
      let l := eval cbv in (branches d u) in
      change (branches d (pad2 k ++ t)) with l
  end;
  cbn [first_some]; rewrite H; reflexivity.

Lemma read_month (m : Z) (f : list directive) (s : string) (vs : list Z)
    (rest : string) :
  1 <= m <= 12 ->
  re_match f (String "/" s) = Some (vs, rest) ->
  re_match (dir_m :: f) (pad2 m ++ String "/" s) = Some (m :: vs, rest).
Proof.
  intros Hm H.
  assert (M : m = 1 \/ m = 2 \/ m = 3 \/ m = 4 \/ m = 5 \/ m = 6 \/ m = 7
              \/ m = 8 \/ m = 9 \/ m = 10 \/ m = 11 \/ m = 12) by lia.
  clear Hm.
  repeat (destruct M as [->|M]; [read_two_digits H|]).
  subst m. read_two_digits H.
Qed.

Lemma read_day (d : Z) (f : list directive) (s : string) (vs : list Z)
    (rest : string) :
  1 <= d <= 31 ->
  re_match f (String "/" s) = Some (vs, rest) ->
  re_match (dir_d :: f) (pad2 d ++ String "/" s) = Some (d :: vs, rest).
Proof.
  intros Hd H.
  assert (D : d = 1 \/ d = 2 \/ d = 3 \/ d = 4 \/ d = 5 \/ d = 6 \/ d = 7
              \/ d = 8 \/ d = 9 \/ d = 10 \/ d = 11 \/ d = 12 \/ d = 13
              \/ d = 14 \/ d = 15 \/ d = 16 \/ d = 17 \/ d = 18 \/ d = 19
              \/ d = 20 \/ d = 21 \/ d = 22 \/ d = 23 \/ d = 24 \/ d = 25
              \/ d = 26 \/ d = 27 \/ d = 28 \/ d = 29 \/ d = 30 \/ d = 31)
    by lia.
  clear Hd.
  repeat (destruct D as [->|D]; [read_two_digits H|]).
  subst d. read_two_digits H.
Qed.

Lemma strptime_dmy_text (d : date) :
  valid_date d -> strptime_dmy (dmy_text d) = Some d.
Proof.
  intros V. destruct (valid_date_bounds d V) as (Hy & Hm & Hd).
  unfold strptime_dmy, dmy_text, fmt_dmy. cbn [append].
  rewrite (read_day (day d) _ _ [month d; year d] "" Hd).
  - destruct d as [y m dd]. exact V.
  - apply read_slash. apply read_month; [exact Hm|].
    apply read_slash. apply read_year. lia.
Qed.

Lemma is_space_dec_digit (n : Z) : is_space (dec_digit n) = false.
Proof.
  unfold is_space, dec_digit, code.
  pose proof (Z.mod_pos_bound n 10 ltac:(lia)).
  rewrite N_ascii_embedding by lia. rewrite Z2N.id by lia.
  apply orb_false_iff. split; [apply orb_false_iff; split|].
  - apply andb_false_iff. right. apply Z.leb_gt. lia.
  - apply andb_false_iff. right. apply Z.leb_gt. lia.
  - apply Z.eqb_neq. lia.
Qed.

Lemma strip_dmy_text (d : date) : strip (dmy_text d) = dmy_text d.
Proof.
  unfold strip, dmy_text, pad2, pad4. cbn [append lstrip].
  rewrite is_space_dec_digit. cbn [rstrip].
  rewrite is_space_dec_digit. reflexivity.
Qed.

(** A calendar date written DD/MM/YYYY is read by [parse_date] as that
    date, and a row of a known module with this deadline and no
    recommended date is stored as one record whose deadline is the same
    date in ISO form, which the feed reads back as the date written in
    the file. *)
Theorem day_month_year_text_is_stored_as_iso
    (db : database) (d : date) (module code g : string) :
  valid_date d ->
  find_group module_groups module = Some g ->
  parse_date (dmy_text d) = Some d
  /\ exists r,
       table (import_from_tsv db [[module; code; ""; dmy_text d]]) = [r]
       /\ module_code r = strip module /\ module_group r = g
       /\ assignment_code r = strip code
       /\ deadline_date r = isoformat d /\ recommend_date r = None
       /\ strptime_ymd (deadline_date r) = Some d.
Proof.
  intros V G.
  assert (P : parse_date (dmy_text d) = Some d).
  { unfold parse_date. rewrite strip_dmy_text. now apply strptime_dmy_text. }
  split; [exact P|].
  unfold import_from_tsv. cbn [fold_left]. unfold import_row.
  rewrite G. unfold parse_dates. unfold parse_date in P. rewrite P.
  cbn [strip lstrip rstrip truthy option_map].
  eexists. unfold insert_or_replace, delete_all. cbn [table filter app].
  split; [reflexivity|]. cbn.
  repeat split. now apply strptime_isoformat.
Qed.

Lemma day_month_year_text_is_stored_as_iso_witness :
  parse_date "29/02/2024" = Some (mkdate 2024 2 29)
  /\ exists r,
       table (import_from_tsv init_database
                [[" sa1 "; "X4"; ""; "29/02/2024"]]) = [r]
       /\ module_code r = "sa1" /\ module_group r = "SA"
       /\ assignment_code r = "X4"
       /\ deadline_date r = "2024-02-29" /\ recommend_date r = None
       /\ strptime_ymd (deadline_date r) = Some (mkdate 2024 2 29).
Proof.
  refine (day_month_year_text_is_stored_as_iso init_database
            (mkdate 2024 2 29) " sa1 " "X4" "SA" _ _); reflexivity.
Defined.

(** ** The files of one run *)

Lemma static_file_names_differ (month : string) (year : Z) :
  NoDup (map (fun g => static_file_name g month year) module_groups).
Proof.
  unfold module_groups, static_file_name. cbn [map append].
  repeat (constructor;
          [cbn [In]; intros H;
           repeat (destruct H as [H|H]; [discriminate H|]); exact H|]).
  constructor.
Qed.

Lemma written_files_of_groups (month : string) (year : Z)
    (f : string -> list Event) (groups : list string) :
  written_files (flat_map (fun g => group_output month year g (f g)) groups)
  = map (fun g => static_file_name g month year)
      (filter (fun g => match f g with [] => false | _ :: _ => true end)
         groups).
Proof.
  unfold written_files.
  induction groups as [|g groups IH]; cbn [flat_map filter map]; [reflexivity|].
  rewrite flat_map_app. fold (written_files
    (flat_map (fun g => group_output month year g (f g)) groups)) in *.
  unfold group_output at 1. destruct (f g); cbn [flat_map app map]; now rewrite IH.
Qed.

Lemma static_file_names_of_some (month : string) (year : Z)
    (p : string -> bool) (groups : list string) :
  NoDup (map (fun g => static_file_name g month year) groups) ->
  NoDup (map (fun g => static_file_name g month year) (filter p groups)).
Proof.
  induction groups as [|g groups IH]; cbn [filter map]; [auto|].
  intros H. inversion H as [|? ? Hg Hrest]; subst.
  destruct (p g); cbn [map]; [|auto].
  constructor; [|auto]. intros Hin. apply Hg.
  apply in_map_iff in Hin. destruct Hin as (g' & E & Hg').
  apply filter_In in Hg'. apply in_map_iff. exists g'. tauto.
Qed.

(** A run of the static generator writes at most ten files, no two of
    them under one name, so no file of the run overwrites another; and
    it prints one line for each file it writes. *)
Theorem static_run_writes_distinct_files
    (rows : list (list string)) (year : Z) (month : string) :
  NoDup (written_files (generate_static_files rows year month))
  /\ (List.length (written_files (generate_static_files rows year month))
      <= 10)%nat
  /\ List.length (generate_static_files rows year month)
     = (2 * List.length
              (written_files (generate_static_files rows year month)))%nat.
Proof.
  unfold generate_static_files.
  split; [|split].
  - rewrite fill_calendars_events, write_calendars_cals, written_files_of_groups.
    apply static_file_names_of_some, static_file_names_differ.
  - rewrite fill_calendars_events, write_calendars_cals, written_files_of_groups.
    rewrite length_map.
    etransitivity; [apply filter_length_le|]. reflexivity.
  - rewrite fill_calendars_events, write_calendars_cals.
    rewrite written_files_of_groups, length_map.
    induction module_groups as [|g groups IH]; [reflexivity|].
    cbn [flat_map filter]. rewrite length_app, IH.
    unfold group_output at 1. destruct (static_events rows g);
      cbn [List.length]; lia.
Qed.

(** ** What the flags of the conversion tool do *)

(** What the flags of the conversion tool do: the server is started
    exactly when --start-server is given; rows are imported exactly when
    --to-database is given without --start-server and the input file
    exists, and then into [deadlines.db]; and with either flag no file
    is written. *)
Theorem what_the_flags_do
    (fs : string -> option (list (list string))) (args : arguments) :
  (In ServerMain (fst (main fs args)) <-> arg_start_server args = true)
  /\ (forall db_path rows,
        In (ImportDb db_path rows) (fst (main fs args))
        <-> arg_start_server args = false /\ to_database args = true
            /\ db_path = "deadlines.db"
            /\ exists path, input_path args = Some path /\ path <> ""
                            /\ fs path = Some rows)
  /\ (arg_start_server args = true \/ to_database args = true ->
      written_files (fst (main fs args)) = []).
Proof.
  unfold main. destruct (arg_start_server args) eqn:S.
  { cbn. split; [tauto|]. split; [|reflexivity].
    intros p rows. split; [intros [H|[]]; discriminate|].
    intros (H & _). discriminate. }
  destruct (input_path args) as [path|].
  2:{ cbn. split; [split; [intros [H|[]]|]; discriminate|].
      split; [|reflexivity]. intros p rows.
      split; [intros [H|[]]; discriminate|].
      intros (_ & _ & _ & path & H & _). discriminate. }
  destruct path as [|c path].
  { cbn. split; [split; [intros [H|[]]|]; discriminate|].
    split; [|reflexivity]. intros p rows.
    split; [intros [H|[]]; discriminate|].
    intros (_ & _ & _ & path & [= <-] & N & _). now elim N. }
  cbn [truthy negb].
  destruct (fs (String c path)) as [rows0|] eqn:F.
  2:{ cbn. split; [split; [intros [H|[]]|]; discriminate|].
      split; [|reflexivity]. intros p rows.
      split; [intros [H|[]]; discriminate|].
      intros (_ & _ & _ & path' & [= <-] & _ & H). congruence. }
  destruct (to_database args) eqn:D.
  { cbn. split; [split; [intros [H|[H|[H|[H|[]]]]]|]; discriminate|].
    split; [|reflexivity]. intros p rows. split.
    - intros [[= <- <-]|[H|[H|[H|[]]]]]; try discriminate.
      repeat split. exists (String c path). repeat split; auto. discriminate.
    - intros (_ & _ & -> & path' & [= <-] & _ & H).
      left. congruence. }
  cbv zeta.
  set (year := match arg_year args with
               | Some y => if y =? 0 then 2026 else y
               | None => 2026
               end).
  set (month := if truthy (arg_month args)
                then match arg_month args with
                     | Some m => m
                     | None => "September"
                     end
                else "September").
  destruct ((year <? 1900) || (year >? 3000)).
  { cbn. split; [split; [intros [H|[]]|]; discriminate|].
    split; [|intros [H|H]; discriminate]. intros p rows.
    split; [intros [H|[]]; discriminate|]. intros (_ & H & _). discriminate. }
  destruct (negb (existsb (String.eqb month) valid_months)).
  { cbn. split; [split; [intros [H|[]]|]; discriminate|].
    split; [|intros [H|H]; discriminate]. intros p rows.
    split; [intros [H|[]]; discriminate|]. intros (_ & H & _). discriminate. }
  cbn [fst]. unfold generate_static_files.
  rewrite fill_calendars_events, write_calendars_cals.
  assert (N : forall e,
             In e (flat_map (fun g => group_output month year g
                                        (static_events rows0 g))
                     module_groups) ->
             (exists a b, e = WriteFile a b) \/ (exists a, e = Print a)).
  { intros e H. apply in_flat_map in H. destruct H as (g & _ & H).
    unfold group_output in H. destruct (static_events rows0 g); [destruct H|].
    destruct H as [<-|[<-|[]]]; eauto. }
  split; [|split].
  - split; [|discriminate]. intros H. destruct (N _ H) as [(a & b & E)|(a & E)];
      discriminate.
  - intros p rows. split.
    + intros H. destruct (N _ H) as [(a & b & E)|(a & E)]; discriminate.
    + intros (_ & H & _). discriminate.
  - intros [H|H]; discriminate.
Qed.

Lemma what_the_flags_do_witness :
  written_files
    (fst (main (fun _ => Some [["CB1"; "X1"; ""; "01/12/2026"]])
            (mkargs (Some "deadlines.tsv") (Some 2027) (Some "May") true
               false)))
  = [].
Proof.
  refine (proj2 (proj2 (what_the_flags_do
            (fun _ => Some [["CB1"; "X1"; ""; "01/12/2026"]])
            (mkargs (Some "deadlines.tsv") (Some 2027) (Some "May") true
               false))) _).
  right. reflexivity.
Defined.

(** ** The texts [strptime] reads as a date *)

Lemma digit_value_inv (c : ascii) (x : Z) :
  digit_value c = Some x -> c = dec_digit x /\ 0 <= x <= 9.
Proof.
  unfold digit_value, code, dec_digit. cbv zeta.
  destruct ((48 <=? Z.of_N (N_of_ascii c)) && (Z.of_N (N_of_ascii c) <=? 57))
    eqn:E; [|discriminate].
  intros [= <-]. apply andb_true_iff in E. destruct E as [E1 E2].
  apply Z.leb_le in E1, E2. split; [|lia].
  rewrite Z.mod_small by lia.
  replace (48 + (Z.of_N (N_of_ascii c) - 48)) with (Z.of_N (N_of_ascii c))
    by lia.
  rewrite N2Z.id. symmetry. apply ascii_N_embedding.
Qed.

Lemma in_range_inv (lo hi : Z) (c : ascii) (x : Z) :
  in_range lo hi c = Some x ->
  c = dec_digit x /\ lo <= x <= hi /\ 0 <= x <= 9.
Proof.
  unfold in_range. destruct (digit_value c) as [v|] eqn:D; [|discriminate].
  destruct ((lo <=? v) && (v <=? hi)) eqn:E; [|discriminate].
  intros [= <-]. apply andb_true_iff in E. destruct E as [E1 E2].
  apply Z.leb_le in E1, E2. destruct (digit_value_inv c v D). auto.
Qed.

Lemma two_inv (lo1 hi1 lo2 hi2 : Z) (s : string) (v : Z) (r : string) :
  In (v, r) (two lo1 hi1 lo2 hi2 s) ->
  exists x y,
    s = String (dec_digit x) (String (dec_digit y) r) /\ v = 10 * x + y
    /\ lo1 <= x <= hi1 /\ lo2 <= y <= hi2 /\ 0 <= x <= 9 /\ 0 <= y <= 9.
Proof.
  unfold two. destruct s as [|a [|b t]]; try (intros []).
  destruct (in_range lo1 hi1 a) as [x|] eqn:X; [|intros []].
  destruct (in_range lo2 hi2 b) as [y|] eqn:Y; [|intros []].
  intros [[= <- <-]|[]].
  destruct (in_range_inv _ _ _ _ X) as (-> & ? & ?).
  destruct (in_range_inv _ _ _ _ Y) as (-> & ? & ?).
  exists x, y. repeat split; first [reflexivity | lia].
Qed.

Lemma one_inv (lo hi : Z) (s : string) (v : Z) (r : string) :
  In (v, r) (one lo hi s) ->
  s = String (dec_digit v) r /\ lo <= v <= hi /\ 0 <= v <= 9.
Proof.
  unfold one. destruct s as [|a t]; [intros []|].
  destruct (in_range lo hi a) as [x|] eqn:X; [|intros []].
  intros [[= <- <-]|[]].
  destruct (in_range_inv _ _ _ _ X) as (-> & ? & ?). auto.
Qed.

Lemma blank_one_inv (lo hi : Z) (s : string) (v : Z) (r : string) :
  In (v, r) (blank_one lo hi s) ->
  s = String " " (String (dec_digit v) r) /\ lo <= v <= hi /\ 0 <= v <= 9.
Proof.
  unfold blank_one. destruct s as [|a t]; [intros []|].
  destruct (Ascii.eqb_spec a " ") as [->|N].
  - intros H. apply one_inv in H. destruct H as (-> & ? & ?). auto.
  - destruct a as [[] [] [] [] [] [] [] []]; try (intros []).
    now elim N.
Qed.

Lemma pad2_digits (x y : Z) :
  0 <= x <= 9 -> 0 <= y <= 9 ->
  pad2 (10 * x + y) = String (dec_digit x) (String (dec_digit y) "").
Proof.
  intros Hx Hy. unfold pad2. f_equal; [|f_equal];
    apply dec_digit_mod; Z.div_mod_to_equations; lia.
Qed.

Lemma pad2_day_text (n : Z) : In (pad2 n) (day_texts n).
Proof. unfold day_texts. destruct (n <? 10); now left. Qed.

Lemma pad2_month_text (n : Z) : In (pad2 n) (month_texts n).
Proof. unfold month_texts. destruct (n <? 10); now left. Qed.

Lemma branches_d_inv (s : string) (v : Z) (r : string) :
  In (v, r) (branches dir_d s) ->
  1 <= v <= 31 /\ exists t, In t (day_texts v) /\ s = t ++ r.
Proof.
  unfold branches. rewrite !in_app_iff.
  intros [H|[H|[H|[H|H]]]].
  - apply two_inv in H. destruct H as (x & y & -> & -> & ? & ? & ? & ?).
    split; [lia|]. exists (pad2 (10 * x + y)).
    split; [apply pad2_day_text|]. now rewrite pad2_digits.
  - apply two_inv in H. destruct H as (x & y & -> & -> & ? & ? & ? & ?).
    split; [lia|]. exists (pad2 (10 * x + y)).
    split; [apply pad2_day_text|]. now rewrite pad2_digits.
  - apply two_inv in H. destruct H as (x & y & -> & -> & ? & ? & ? & ?).
    split; [lia|]. exists (pad2 (10 * x + y)).
    split; [apply pad2_day_text|]. now rewrite pad2_digits.
  - apply one_inv in H. destruct H as (-> & ? & ?).
    split; [lia|]. exists (digit_text v). split; [|reflexivity].
    unfold day_texts. replace (v <? 10) with true
      by (symmetry; apply Z.ltb_lt; lia).
    right. now left.
  - apply blank_one_inv in H. destruct H as (-> & ? & ?).
    split; [lia|]. exists (String " " (digit_text v)). split; [|reflexivity].
    unfold day_texts. replace (v <? 10) with true
      by (symmetry; apply Z.ltb_lt; lia).
    right. right. now left.
Qed.

Lemma branches_m_inv (s : string) (v : Z) (r : string) :
  In (v, r) (branches dir_m s) ->
  1 <= v <= 12 /\ exists t, In t (month_texts v) /\ s = t ++ r.
Proof.
  unfold branches. rewrite !in_app_iff.
  intros [H|[H|H]].
  - apply two_inv in H. destruct H as (x & y & -> & -> & ? & ? & ? & ?).
    split; [lia|]. exists (pad2 (10 * x + y)).
    split; [apply pad2_month_text|]. now rewrite pad2_digits.
  - apply two_inv in H. destruct H as (x & y & -> & -> & ? & ? & ? & ?).
    split; [lia|]. exists (pad2 (10 * x + y)).
    split; [apply pad2_month_text|]. now rewrite pad2_digits.
  - apply one_inv in H. destruct H as (-> & ? & ?).
    split; [lia|]. exists (digit_text v). split; [|reflexivity].
    unfold month_texts. replace (v <? 10) with true
      by (symmetry; apply Z.ltb_lt; lia).
    right. now left.
Qed.

Lemma branches_Y_inv (s : string) (v : Z) (r : string) :
  In (v, r) (branches dir_Y s) -> 0 <= v <= 9999 /\ s = pad4 v ++ r.
Proof.
  unfold branches. destruct s as [|a [|b [|c [|e t]]]]; try (intros []).
  destruct (digit_value a) as [x|] eqn:Dx; [|intros []].
  destruct (digit_value b) as [y|] eqn:Dy; [|intros []].
  destruct (digit_value c) as [z|] eqn:Dz; [|intros []].
  destruct (digit_value e) as [w|] eqn:Dw; [|intros []].
  intros [H|[]].
  assert (Ev : v = 1000 * x + 100 * y + 10 * z + w) by congruence.
  assert (Er : r = t) by congruence.
  clear H. subst v r.
  destruct (digit_value_inv _ _ Dx) as (-> & ?).
  destruct (digit_value_inv _ _ Dy) as (-> & ?).
  destruct (digit_value_inv _ _ Dz) as (-> & ?).
  destruct (digit_value_inv _ _ Dw) as (-> & ?).
  split; [lia|]. unfold pad4. cbn [append].
  f_equal; [|f_equal; [|f_equal; [|f_equal]]];
    apply dec_digit_mod; Z.div_mod_to_equations; lia.
Qed.

Lemma branches_lit_inv (c : ascii) (s : string) (v : Z) (r : string) :
  In (v, r) (branches (dir_lit c) s) -> s = String c r.
Proof.
  unfold branches. destruct s as [|a t]; [intros []|].
  destruct (Ascii.eqb_spec c a) as [->|N]; [|intros []].
  now intros [[= _ <-]|[]].
Qed.

Lemma first_some_inv {A B} (f : A -> option B) (l : list A) (y : B) :
  first_some f l = Some y -> exists x, In x l /\ f x = Some y.
Proof.
  induction l as [|x l IH]; cbn [first_some]; [discriminate|].
  destruct (f x) as [z|] eqn:E.
  - intros [= <-]. exists x. split; [now left | exact E].
  - intros H. destruct (IH H) as (x' & Hin & Hx). exists x'.
    split; [now right | exact Hx].
Qed.

Lemma re_match_inv (d : directive) (f : list directive) (s : string)
    (vs : list Z) (rest : string) :
  re_match (d :: f) s = Some (vs, rest) ->
  exists v r vs',
    In (v, r) (branches d s) /\ re_match f r = Some (vs', rest)
    /\ vs = match d with dir_lit _ => vs' | _ => v :: vs' end.
Proof.
  rewrite re_match_step. intros H. apply first_some_inv in H.
  destruct H as ([v r] & Hin & H).
  destruct (re_match f r) as [[vs' rest']|] eqn:E; [|discriminate].
  injection H as <- <-. exists v, r, vs'. repeat split; auto.
Qed.

Lemma strptime_dmy_sound (s : string) (d : date) :
  strptime_dmy s = Some d -> reads_as s d.
Proof.
  intros H. pose proof (strptime_dmy_valid s d H) as V.
  split; [exact V|].
  unfold strptime_dmy in H.
  destruct (re_match fmt_dmy s) as [[vs rest]|] eqn:M; [|discriminate].
  unfold fmt_dmy in M.
  apply re_match_inv in M. destruct M as (v1 & r1 & vs1 & B1 & M & ->).
  apply re_match_inv in M. destruct M as (v2 & r2 & vs2 & B2 & M & ->).
  apply re_match_inv in M. destruct M as (v3 & r3 & vs3 & B3 & M & ->).
  apply re_match_inv in M. destruct M as (v4 & r4 & vs4 & B4 & M & ->).
  apply re_match_inv in M. destruct M as (v5 & r5 & vs5 & B5 & M & ->).
  cbn [re_match] in M. injection M as <- <-. cbv beta iota in H.
  destruct r5; [|discriminate].
  apply branches_d_inv in B1. destruct B1 as (_ & dt & Hdt & ->).
  apply branches_lit_inv in B2. subst r1.
  apply branches_m_inv in B3. destruct B3 as (_ & mt & Hmt & ->).
  apply branches_lit_inv in B4. subst r3.
  apply branches_Y_inv in B5. destruct B5 as (_ & ->).
  unfold make_date in H.
  match type of H with
  | (if ?c then _ else _) = _ => destruct c; [|discriminate]
  end.
  injection H as <-. cbn [year month day].
  exists dt, mt. split; [exact Hdt|]. split; [exact Hmt|].
  now rewrite append_empty.
Qed.

Ltac read_text H :=
  rewrite re_match_step;
  match goal with
  | |- context [branches ?d ?t] =>
      let l := eval cbv in (branches d t) in
      change (branches d t) with l
  end;
  cbn [first_some]; rewrite H; reflexivity.

Lemma read_day_text (d : Z) (t : string) (f : list directive) (s : string)
    (vs : list Z) (rest : string) :
  1 <= d <= 31 -> In t (day_texts d) ->
  re_match f (String "/" s) = Some (vs, rest) ->
  re_match (dir_d :: f) (t ++ String "/" s) = Some (d :: vs, rest).
Proof.
  intros Hd Ht H.
  assert (D : d = 1 \/ d = 2 \/ d = 3 \/ d = 4 \/ d = 5 \/ d = 6 \/ d = 7
              \/ d = 8 \/ d = 9 \/ 10 <= d <= 31) by lia.
  repeat (destruct D as [->|D];
          [cbv [day_texts Z.ltb Z.compare Pos.compare Pos.compare_cont] in Ht;
           destruct Ht as [<-|[<-|[<-|[]]]]; read_text H|]).
  unfold day_texts in Ht.
  replace (d <? 10) with false in Ht by (symmetry; apply Z.ltb_ge; lia).
  destruct Ht as [<-|[]]. now apply read_day.
Qed.

Lemma read_month_text (m : Z) (t : string) (f : list directive) (s : string)
    (vs : list Z) (rest : string) :
  1 <= m <= 12 -> In t (month_texts m) ->
  re_match f (String "/" s) = Some (vs, rest) ->
  re_match (dir_m :: f) (t ++ String "/" s) = Some (m :: vs, rest).
Proof.
  intros Hm Ht H.
  assert (M : m = 1 \/ m = 2 \/ m = 3 \/ m = 4 \/ m = 5 \/ m = 6 \/ m = 7
              \/ m = 8 \/ m = 9 \/ 10 <= m <= 12) by lia.
  repeat (destruct M as [->|M];
          [cbv [month_texts Z.ltb Z.compare Pos.compare Pos.compare_cont]
             in Ht;
           destruct Ht as [<-|[<-|[]]]; read_text H|]).
  unfold month_texts in Ht.
  replace (m <? 10) with false in Ht by (symmetry; apply Z.ltb_ge; lia).
  destruct Ht as [<-|[]]. now apply read_month.
Qed.

Lemma strptime_dmy_complete (s : string) (d : date) :
  reads_as s d -> strptime_dmy s = Some d.
Proof.
  intros (V & dt & mt & Hdt & Hmt & ->).
  destruct (valid_date_bounds d V) as (Hy & Hm & Hd).
  unfold strptime_dmy, fmt_dmy.
  change (dt ++ "/" ++ mt ++ "/" ++ pad4 (year d))
    with (dt ++ String "/" (mt ++ String "/" (pad4 (year d)))).
  rewrite (read_day_text (day d) dt _ _ [month d; year d] "" Hd Hdt).
  - destruct d as [y m dd]. exact V.
  - apply read_slash. apply read_month_text; [exact Hm | exact Hmt|].
    apply read_slash. apply read_year. lia.
Qed.

Lemma strptime_dmy_reads (s : string) (d : date) :
  strptime_dmy s = Some d <-> reads_as s d.
Proof.
  split; [apply strptime_dmy_sound | apply strptime_dmy_complete].
Qed.

Lemma dates_read_parse (rec dl : string) :
  dates_read rec dl <-> dates_parse rec dl.
Proof.
  unfold dates_read, dates_parse. split.
  - intros [[d Hd] Hr]. split.
    + exists d. now apply strptime_dmy_reads.
    + intros N. destruct (Hr N) as [r H]. exists r.
      now apply strptime_dmy_reads.
  - intros [[d Hd] Hr]. split.
    + exists d. now apply strptime_dmy_reads.
    + intros N. destruct (Hr N) as [r H]. exists r.
      now apply strptime_dmy_reads.
Qed.

Lemma dmy_text_reads (d : date) : valid_date d -> reads_as (dmy_text d) d.
Proof.
  intros V. split; [exact V|].
  exists (pad2 (day d)), (pad2 (month d)).
  split; [apply pad2_day_text|]. split; [apply pad2_month_text|].
  reflexivity.
Qed.

Lemma strict_text_reads (s : string) (d : date) :
  is_dmy_shape s = true -> reads_as s d -> s = dmy_text d.
Proof.
  intros S (_ & dt & mt & Hdt & Hmt & ->).
  unfold day_texts in Hdt. unfold month_texts in Hmt.
  destruct (day d <? 10); destruct (month d <? 10);
    cbn [In] in Hdt, Hmt;
    repeat match goal with
           | H : _ \/ _ |- _ => destruct H as [H|H]
           | H : False |- _ => destruct H
           end;
    subst dt mt; first [reflexivity | discriminate S].
Qed.

(** ** Date validation during ingestion, by the texts accepted *)

(** C2, as the code has it.  A row of at least four fields with a
    classifiable module code is stored exactly when its deadline text,
    trimmed, writes a calendar date as day/month/year and its
    recommended-date text, when not blank, does too; otherwise the whole
    row is dropped, also when only the recommended date is wrong.  The
    texts that write a date are the ones [strptime] accepts with
    ["%d/%m/%Y"]: a year of four digits, a day and a month of two digits
    or of one.  So every text DD/MM/YYYY of a calendar date is accepted,
    and a text of that strict shape is accepted only as the date it
    writes (31/02/2026 is none), but the shape is not required.  The
    stored deadline is the ISO text of the date: 01/12/2026 is stored as
    2026-12-01. *)
Theorem date_validation_row_drop
    (db : database) (module code rec dl : string) (rest : list string)
    (g : string) :
  find_group module_groups module = Some g ->
  let row := module :: code :: rec :: dl :: rest in
  (dates_read rec dl
   <-> exists record, table (import_from_tsv db [row]) = [record])
  /\ (dates_read rec dl <-> import_row db row <> db)
  /\ (forall d,
        reads_as (strip dl) d ->
        (strip rec <> "" -> exists r, reads_as (strip rec) r) ->
        exists record,
          table (import_row db row)
          = (filter (fun x => negb (same_key x record)) (table db)
               ++ [record])%list
          /\ module_code record = strip module
          /\ module_group record = g
          /\ assignment_code record = strip code
          /\ deadline_date record = isoformat d
          /\ (strip rec = "" -> recommend_date record = None)
          /\ (forall r, strip rec <> "" -> reads_as (strip rec) r ->
                recommend_date record = Some (isoformat r)))
  /\ (forall s d, strptime_dmy s = Some d <-> reads_as s d)
  /\ (forall d, valid_date d -> reads_as (dmy_text d) d)
  /\ (forall s d, is_dmy_shape s = true -> reads_as s d -> s = dmy_text d)
  /\ (strip dl = "01/12/2026" -> strip rec = "" ->
      exists record,
        table (import_from_tsv db [row]) = [record]
        /\ deadline_date record = "2026-12-01")
  /\ (strip dl = "31/02/2026" ->
      import_row db row = db /\ table (import_from_tsv db [row]) = []).
Proof.
  intros Hg row.
  destruct (stored_when_dates_parse db module code rec dl rest g Hg)
    as (A & B & C & D & E).
  fold row in A, B, C, D, E.
  split; [now rewrite dates_read_parse|].
  split; [now rewrite dates_read_parse|].
  split; [|split; [apply strptime_dmy_reads|]].
  - intros d Rd Rr.
    assert (P : dates_parse rec dl) by (apply dates_read_parse; split; eauto).
    destruct (C P) as (d' & x & Hd & T & Hmc & Hmg & Hac & Hdl & Hn & Hs).
    apply strptime_dmy_complete in Rd. rewrite Rd in Hd. injection Hd as <-.
    exists x. repeat split; auto.
    intros r N Rr'. rewrite (Hs N).
    apply strptime_dmy_complete in Rr'. now rewrite Rr'.
  - split; [apply dmy_text_reads|]. split; [apply strict_text_reads|].
    split; [exact D | exact E].
Qed.

Lemma date_validation_row_drop_witness :
  (dates_read "  " " 01/12/2026 "
   <-> exists record,
         table (import_from_tsv init_database
                  [["CM1A"; "X1"; "  "; " 01/12/2026 "]]) = [record])
  /\ (exists record,
        table (import_from_tsv init_database
                 [["CM1A"; "X1"; "  "; " 01/12/2026 "]]) = [record]
        /\ deadline_date record = "2026-12-01").
Proof.
  destruct (date_validation_row_drop init_database "CM1A" "X1" "  "
              " 01/12/2026 " [] "CM1" eq_refl)
    as (A & _ & _ & _ & _ & _ & B & _).
  split; [exact A | exact (B eq_refl eq_refl)].
Defined.

(** C2 as stated fails for a date that is not written DD/MM/YYYY: the
    text 1/2/2026 has one digit for the day and one for the month, and
    its row is stored, with the first of February as its deadline. *)
Lemma date_of_one_digit_fields_is_stored :
  is_dmy_shape "1/2/2026" = false
  /\ find_group module_groups "CM1A" = Some "CM1"
  /\ map deadline_date
       (table (import_from_tsv init_database
                 [["CM1A"; "X1"; ""; "1/2/2026"]]))
     = ["2026-02-01"].
Proof. repeat split; reflexivity. Qed.

(** ** Classified rows in the two outputs *)

Lemma find_group_strip (keys : list string) (module : string) :
  find_group keys (strip module) = find_group keys module.
Proof.
  induction keys as [|k keys IH]; simpl; [reflexivity|].
  now rewrite strip_idem, IH.
Qed.

Lemma stored_group_of_code (db : database) (rows : list (list string))
    (r : deadline) :
  In r (table (import_from_tsv db rows)) ->
  find_group module_groups (module_code r) = Some (module_group r).
Proof.
  intros H. destruct (stored_from_row db rows r H) as (row & _ & E).
  destruct (row_values_columns row r E)
    as (m & c & rr & dd & rest & _ & G & Hm & _).
  now rewrite Hm, find_group_strip.
Qed.

(** C1. The module code, trimmed and upper-cased, is given the first
    group of CM1, CM2, CS1, CS2, CB, CP1, CP2, CP3, SP, SA it starts with
    (and it starts with at most one of them).  A row of that group whose
    dates pass is stored by ingestion under the group, and a row of that
    group whose deadline passes is filed by the static generator in the
    calendar of the group and of no other; a row whose module code
    starts with none of the ten leaves the store and the generated files
    as they are without it. *)
Theorem module_group_classification (module : string) :
  (forall g, find_group module_groups module = Some g
             <-> first_prefix module_groups (upper (strip module)) g)
  /\ (forall g, In g module_groups ->
                startswith (upper (strip module)) g = true ->
                find_group module_groups module = Some g)
  /\ (find_group module_groups module = None
      <-> Forall (fun g => startswith (upper (strip module)) g = false)
                 module_groups)
  /\ (forall month year ev cals,
        add_to_first (map fst (module_files month year)) module ev cals =
        match find_group module_groups module with
        | Some g => update cals g (fun cal => events_add cal ev)
        | None => cals
        end)
  /\ (find_group module_groups module = None ->
      forall fields before after db year month,
        import_from_tsv db (before ++ (module :: fields) :: after)
        = import_from_tsv db (before ++ after)
        /\ generate_static_files (before ++ (module :: fields) :: after)
             year month
           = generate_static_files (before ++ after) year month)
  /\ (forall g code rec dl rest d r,
        find_group module_groups module = Some g ->
        parse_dates rec dl = Some (d, r) ->
        (forall db,
           import_row db (module :: code :: rec :: dl :: rest)
           = insert_or_replace db (strip module) g (strip code)
               (Some (strip module ++ " " ++ strip code))
               (option_map isoformat r) (isoformat d))
        /\ (forall db before after,
              exists record,
                In record
                  (table (import_from_tsv db
                            (before ++ (module :: code :: rec :: dl :: rest)
                               :: after)))
                /\ module_code record = strip module
                /\ assignment_code record = strip code
                /\ module_group record = g))
  /\ (forall g code rec dl rest start,
        find_group module_groups module = Some g ->
        parse_date dl = Some start ->
        (forall month year cals,
           add_row (map fst (module_files month year)) cals
             (module :: code :: rec :: dl :: rest)
           = update cals g
               (fun cal =>
                  events_add cal
                    (mkEvent (module ++ " " ++ code ++ " deadline")
                       (at_midnight start) (at_midnight start) None []
                       None)))
        /\ (forall before after year month,
              exists cal,
                In (WriteFile (static_file_name g month year) cal)
                  (generate_static_files
                     (before ++ (module :: code :: rec :: dl :: rest)
                        :: after) year month)
                /\ In (mkEvent (module ++ " " ++ code ++ " deadline")
                         (at_midnight start) (at_midnight start) None []
                         None)
                     (events cal))).
Proof.
  split; [intros g; apply find_group_first|].
  split; [intros g; apply find_group_unique|].
  split; [apply find_group_none|].
  split; [intros; rewrite static_keys; apply add_to_first_find|].
  split; [|split].
  - intros H fields before after db year month. split.
    + unfold import_from_tsv. rewrite !fold_left_app. cbn [fold_left].
      now rewrite import_row_unclassified.
    + unfold generate_static_files, fill_calendars.
      rewrite !fold_left_app. cbn [fold_left].
      rewrite add_row_unclassified; [reflexivity|].
      now rewrite static_keys.
  - intros g code rec dl rest d r Hg P.
    set (row := module :: code :: rec :: dl :: rest).
    assert (Step : forall db,
              import_row db row
              = insert_or_replace db (strip module) g (strip code)
                  (Some (strip module ++ " " ++ strip code))
                  (option_map isoformat r) (isoformat d)).
    { intros db. unfold row, import_row. now rewrite Hg, P. }
    split; [exact Step|].
    intros db before after.
    assert (E : row_values row
                = Some (strip module, g, strip code,
                        Some (strip module ++ " " ++ strip code),
                        option_map isoformat r, isoformat d, "2026", true)).
    { unfold row, row_values. now rewrite Hg, P. }
    assert (K : exists x,
              In x (table (import_from_tsv db (before ++ row :: after)))
              /\ natural_key x = (strip module, strip code, "2026")).
    { unfold import_from_tsv. rewrite fold_left_app. cbn [fold_left].
      apply fold_import_key_stays.
      destruct (import_row_stores
                  (fold_left import_row before (delete_all db)) row _ E)
        as (x & Hx & Cx).
      exists x. split; [exact Hx|]. now rewrite <- key_of_columns, Cx. }
    destruct K as (x & Hx & Kx). exists x. split; [exact Hx|].
    unfold natural_key in Kx. injection Kx as Kmc Kac _.
    split; [exact Kmc|]. split; [exact Kac|].
    pose proof (stored_group_of_code _ _ _ Hx) as G.
    rewrite Kmc, find_group_strip, Hg in G. now injection G.
  - intros g code rec dl rest start Hg P.
    set (ev := mkEvent (module ++ " " ++ code ++ " deadline")
                 (at_midnight start) (at_midnight start) None [] None).
    set (row := module :: code :: rec :: dl :: rest).
    split.
    + intros month year cals. unfold row, add_row. rewrite P.
      now rewrite static_keys, add_to_first_find, Hg.
    + intros before after year month.
      set (rows := (before ++ row :: after)%list).
      assert (Hev : In ev (static_events rows g)).
      { unfold static_events, rows. apply in_flat_map. exists row.
        split; [apply in_or_app; right; now left|].
        unfold row, row_event. rewrite P, Hg, String.eqb_refl. now left. }
      exists (static_calendar month year g (static_events rows g)).
      split; [|exact Hev].
      unfold generate_static_files.
      rewrite fill_calendars_events, write_calendars_cals.
      apply in_flat_map. exists g. split.
      * now destruct (find_group_in _ _ _ Hg).
      * apply group_output_write. repeat split; auto.
        intros N. rewrite N in Hev. destruct Hev.
Qed.

Lemma module_group_classification_witness :
  find_group module_groups " cm1a " = Some "CM1"
  /\ find_group module_groups "XY9" = None
  /\ import_from_tsv init_database
       [["XY9"; "X1"; ""; "01/12/2026"]; ["cb2"; "X1"; ""; "01/12/2026"]]
     = import_from_tsv init_database [["cb2"; "X1"; ""; "01/12/2026"]]
  /\ (exists record,
        In record
          (table (import_from_tsv init_database
                    [["XY9"; "X1"; ""; "01/12/2026"];
                     [" cm1a "; "X1"; ""; "01/12/2026"]]))
        /\ module_code record = "cm1a"
        /\ assignment_code record = "X1"
        /\ module_group record = "CM1")
  /\ (exists cal,
        In (WriteFile (static_file_name "CM1" "September" 2026) cal)
          (generate_static_files
             [["XY9"; "X1"; ""; "01/12/2026"];
              [" cm1a "; "X1"; ""; "01/12/2026"]] 2026 "September")
        /\ In (mkEvent " cm1a  X1 deadline"
                 (at_midnight (mkdate 2026 12 1))
                 (at_midnight (mkdate 2026 12 1)) None [] None)
             (events cal)).
Proof.
  destruct (module_group_classification " cm1a ")
    as (_ & H & _ & _ & _ & S & F).
  destruct (module_group_classification "XY9") as (_ & _ & N & _ & D & _).
  assert (C : find_group module_groups " cm1a " = Some "CM1").
  { apply H; [simpl; auto | reflexivity]. }
  split; [exact C|].
  assert (E : find_group module_groups "XY9" = None).
  { apply N. repeat constructor. }
  split; [exact E|].
  split.
  { exact (proj1 (D E ["X1"; ""; "01/12/2026"] []
                    [["cb2"; "X1"; ""; "01/12/2026"]] init_database 2026
                    "September")). }
  split.
  - exact (proj2 (S "CM1" "X1" "" "01/12/2026" [] (mkdate 2026 12 1) None
                    C eq_refl)
             init_database [["XY9"; "X1"; ""; "01/12/2026"]] []).
  - exact (proj2 (F "CM1" "X1" "" "01/12/2026" [] (mkdate 2026 12 1)
                    C eq_refl)
             [["XY9"; "X1"; ""; "01/12/2026"]] [] 2026 "September").
Defined.
